(** * CLIChatRoom: wire codec, user registry, routing and session handling

    A shallow embedding of the chat room's C++ sources (common.h,
    network.cpp, services.cpp, server.cpp, client.cpp) together with the
    properties of the codec, the registry, the router, the command
    processor and the per-connection session that are stated about them. *)

From Stdlib Require Import ZArith Lia Ascii String List DecimalString.
From stdpp Require Import base option list gmap strings.

Local Open Scope Z_scope.

(** ** common.h: data structures *)

(** [using Socket = int]: an alias, not a type of its own. *)
Abbreviation Socket := Z (only parsing).

(** [enum class MessageType]: the enumerators in declaration order. *)
Inductive MessageType :=
  | PUBLIC_MESSAGE
  | PRIVATE_MESSAGE
  | SYSTEM_ANNOUNCEMENT
  | USER_JOINED
  | USER_LEFT
  | USER_LIST_REQUEST
  | USER_LIST_RESPONSE
  | COMMAND_RESPONSE.

(** The underlying [int] of an enumerator ([static_cast<int32_t>(msg.type)]). *)
Definition code (t : MessageType) : Z :=
  match t with
  | PUBLIC_MESSAGE => 0
  | PRIVATE_MESSAGE => 1
  | SYSTEM_ANNOUNCEMENT => 2
  | USER_JOINED => 3
  | USER_LEFT => 4
  | USER_LIST_REQUEST => 5
  | USER_LIST_RESPONSE => 6
  | COMMAND_RESPONSE => 7
  end.

(** The enumerator named by an [int], when there is one. *)
Definition of_code (z : Z) : option MessageType :=
  if z =? 0 then Some PUBLIC_MESSAGE
  else if z =? 1 then Some PRIVATE_MESSAGE
  else if z =? 2 then Some SYSTEM_ANNOUNCEMENT
  else if z =? 3 then Some USER_JOINED
  else if z =? 4 then Some USER_LEFT
  else if z =? 5 then Some USER_LIST_REQUEST
  else if z =? 6 then Some USER_LIST_RESPONSE
  else if z =? 7 then Some COMMAND_RESPONSE
  else None.

(** [struct Message].  An [enum class] object holds any value of its
    underlying [int], and [Deserialize] stores whatever it read with a
    [static_cast]; the field is therefore the underlying integer, compared
    with [code] of an enumerator where the source compares with one. *)
Record Message := mkMessage {
  type : Z;
  timestamp : Z;
  sender_username : string;
  target_username : string;
  content : string
}.

(** [struct User]. *)
Record User := mkUser {
  id : Z;
  username : string;
  connected : bool;
  joined_at : Z
}.

(** [struct LogEntry]. *)
Record LogEntry := mkLogEntry {
  log_timestamp : Z;
  event_type : Z;
  actor : string;
  target : string;
  log_content : string
}.

(** ** Fixed-width integers *)

(** Conversion to [uint32_t] / [uint64_t] and back to the signed types. *)
Definition to_u32 (z : Z) : Z := z mod 2 ^ 32.
Definition to_u64 (z : Z) : Z := z mod 2 ^ 64.
Definition to_i32 (u : Z) : Z := (u + 2 ^ 31) mod 2 ^ 32 - 2 ^ 31.
Definition to_i64 (u : Z) : Z := (u + 2 ^ 63) mod 2 ^ 64 - 2 ^ 63.

Definition int32_range (z : Z) : Prop := - 2 ^ 31 <= z < 2 ^ 31.
Definition int64_range (z : Z) : Prop := - 2 ^ 63 <= z < 2 ^ 63.

(** [static_cast<char>(x & 0xFF)] and [static_cast<unsigned char>(c)]. *)
Definition char_of (x : Z) : ascii := ascii_of_N (Z.to_N (Z.land x 255)).
Definition uchar (c : ascii) : Z := Z.of_N (N_of_ascii c).

(** ** The world the services run in

    [g_users] is the registry of services.cpp and [g_current_log_file] the
    name of the log.  A socket is seen through what can be received from
    it ([inbound]: the results of the successive [recv] calls, an empty
    chunk standing for a result [<= 0]), what was handed to [SendMessage]
    ([sent]), the sockets whose peer is gone ([dead]) and the [close] calls
    ([closed]).  [files] is the content of the files written, [console_in]
    and [console_out] the terminal of the client, [clock] the successive
    readings of the system clock. *)
Record World := mkWorld {
  g_users : gmap string (User * Socket);
  g_current_log_file : string;
  files : gmap string (list string);
  inbound : gmap Z (list (list ascii));
  sent : list (Socket * Message);
  dead : gset Z;
  closed : list Socket;
  console_in : list string;
  console_out : list string;
  clock : nat -> Z;
  ticks : nat
}.

Definition set_users (f : gmap string (User * Socket) -> gmap string (User * Socket))
    (w : World) : World :=
  mkWorld (f (g_users w)) (g_current_log_file w) (files w) (inbound w)
          (sent w) (dead w) (closed w) (console_in w) (console_out w)
          (clock w) (ticks w).


Definition set_files (f : gmap string (list string) -> gmap string (list string))
    (w : World) : World :=
  mkWorld (g_users w) (g_current_log_file w) (f (files w)) (inbound w)
          (sent w) (dead w) (closed w) (console_in w) (console_out w)
          (clock w) (ticks w).

Definition set_inbound (sock : Socket) (stream : list (list ascii))
    (w : World) : World :=
  mkWorld (g_users w) (g_current_log_file w) (files w)
          (<[sock := stream]> (inbound w))
          (sent w) (dead w) (closed w) (console_in w) (console_out w)
          (clock w) (ticks w).

Definition add_sent (sock : Socket) (msg : Message) (w : World) : World :=
  mkWorld (g_users w) (g_current_log_file w) (files w) (inbound w)
          (sent w ++ [(sock, msg)]) (dead w) (closed w)
          (console_in w) (console_out w) (clock w) (ticks w).

Definition add_closed (sock : Socket) (w : World) : World :=
  mkWorld (g_users w) (g_current_log_file w) (files w) (inbound w)
          (sent w) (dead w) (closed w ++ [sock])
          (console_in w) (console_out w) (clock w) (ticks w).

Definition set_console_in (lines : list string) (w : World) : World :=
  mkWorld (g_users w) (g_current_log_file w) (files w) (inbound w)
          (sent w) (dead w) (closed w) lines (console_out w)
          (clock w) (ticks w).

Definition tick (w : World) : World :=
  mkWorld (g_users w) (g_current_log_file w) (files w) (inbound w)
          (sent w) (dead w) (closed w) (console_in w) (console_out w)
          (clock w) (S (ticks w)).

(** State passing for code that reads and writes the world. *)
Definition M (A : Type) : Type := World -> A * World.

Definition ret {A} (a : A) : M A := fun w => (a, w).
Definition bind {A B} (m : M A) (k : A -> M B) : M B :=
  fun w => let (a, w') := m w in k a w'.

Notation "'let*' x := m 'in' k" := (bind m (fun x => k))
  (at level 10, x pattern, m at level 100, k at level 200).
Notation "m ;; k" := (bind m (fun _ => k))
  (at level 100, k at level 200, right associativity).

(** A range-based [for] whose body updates the variables it captures. *)
Fixpoint for_each {A S : Type} (l : list A) (body : A -> S -> M S) (acc : S)
    : M S :=
  match l with
  | [] => ret acc
  | x :: l' => let* acc' := body x acc in for_each l' body acc'
  end.

(** [NowEpochMs]: the next reading of the clock. *)
Definition NowEpochMs : M Z :=
  fun w => (clock w (ticks w), tick w).

(** ** network.cpp *)
Module NetworkLayer.

(** [write_int32]: [htonl] followed by a copy of the four bytes, which
    puts the most significant byte first. *)
Definition write_int32 (v : Z) : list ascii :=
  let u := to_u32 v in
  [char_of (Z.shiftr u 24); char_of (Z.shiftr u 16);
   char_of (Z.shiftr u 8); char_of u].

(** [write_int64]: [for (int i = 7; i >= 0; --i)], one byte each. *)
Definition write_int64 (v : Z) : list ascii :=
  let uv := to_u64 v in
  List.map (fun i : Z => char_of (Z.land (Z.shiftr uv (i * 8)) 255))
           [7; 6; 5; 4; 3; 2; 1; 0].

(** [write_string]: the size cast to [int32_t], then the characters. *)
Definition write_string (s : string) : list ascii :=
  write_int32 (to_i32 (Z.of_nat (String.length s)))
    ++ list_ascii_of_string s.

Definition Serialize (msg : Message) : list ascii :=
  write_int32 (type msg)
    ++ write_int64 (timestamp msg)
    ++ write_string (sender_username msg)
    ++ write_string (target_username msg)
    ++ write_string (content msg).

(** The readers of [Deserialize] share the buffer and the cursor [pos];
    a [throw] is [None]. *)
Definition Reader (A : Type) : Type :=
  list ascii -> nat -> option (A * nat).

Definition rbind {A B} (r : Reader A) (k : A -> Reader B) : Reader B :=
  fun data pos =>
    match r data pos with
    | Some (a, pos') => k a data pos'
    | None => None
    end.

Definition rret {A} (a : A) : Reader A := fun _ pos => Some (a, pos).

(** The value of bytes read most significant first. *)
Definition be_value (bs : list ascii) : Z :=
  fold_left (fun acc c => Z.lor (Z.shiftl acc 8) (uchar c)) bs 0.

Definition read_int32 : Reader Z :=
  fun data pos =>
    if (length data <? pos + 4)%nat then None
    else Some (to_i32 (be_value (take 4 (drop pos data))), (pos + 4)%nat).

(** [uv = (uv << 8) | byte] on a [uint64_t], eight times. *)
Definition read_int64 : Reader Z :=
  fun data pos =>
    if (length data <? pos + 8)%nat then None
    else
      let uv := fold_left
                  (fun uv c => Z.lor (to_u64 (Z.shiftl uv 8)) (uchar c))
                  (take 8 (drop pos data)) 0 in
      Some (to_i64 uv, (pos + 8)%nat).

Definition read_string : Reader string :=
  rbind read_int32 (fun len data pos =>
    if (len <? 0) || (Z.of_nat (length data) <? Z.of_nat pos + len)
    then None
    else Some (string_of_list_ascii (take (Z.to_nat len) (drop pos data)),
               (pos + Z.to_nat len)%nat)).

Definition Deserialize (data : list ascii) : option Message :=
  fst <$>
    rbind read_int32 (fun type_i32 =>
    rbind read_int64 (fun ts =>
    rbind read_string (fun sender =>
    rbind read_string (fun target =>
    rbind read_string (fun content =>
    rret (mkMessage type_i32 ts sender target content)))))) data 0%nat.

(** [recv_all]: [recv] is called until [len] bytes are in.  A call
    returns the next chunk of the stream, cut to what was asked for; the
    rest of a cut chunk stays for the next call.  An empty chunk, or the
    end of the stream, is a result [<= 0] and makes [recv_all] fail. *)
Fixpoint recv_all (stream : list (list ascii)) (len : nat)
    : option (list ascii) * list (list ascii) :=
  match len with
  | O => (Some [], stream)
  | S _ =>
      match stream with
      | [] => (None, [])
      | chunk :: stream' =>
          if (length chunk =? 0)%nat then (None, stream')
          else if (length chunk <=? len)%nat then
            let (r, rest) := recv_all stream' (len - length chunk) in
            (app chunk <$> r, rest)
          else (Some (take len chunk), drop len chunk :: stream')
      end
  end.

(** The bytes [SendMessage] puts on the wire: the length prefix and the
    serialized message. *)
Definition frame (msg : Message) : list ascii :=
  let serialized := Serialize msg in
  write_int32 (to_i32 (Z.of_nat (length serialized))) ++ serialized.

(** [ReceiveMessage] on the stream of one socket: the result and what is
    left of the stream. *)
Definition ReceiveMessage_stream (stream : list (list ascii))
    : option Message * list (list ascii) :=
  match recv_all stream 4 with
  | (None, rest) => (None, rest)
  | (Some net_len, rest) =>
      let total_len := to_i32 (be_value net_len) in
      if total_len <=? 0 then (None, rest)
      else
        match recv_all rest (Z.to_nat total_len) with
        | (None, rest') => (None, rest')
        | (Some buf, rest') => (Deserialize buf, rest')
        end
  end.

(** [SendMessage]: the message is handed to the socket; the result says
    whether the peer was still there. *)
Definition SendMessage (sock : Socket) (msg : Message) : M bool :=
  fun w => (bool_decide (sock ∉ dead w), add_sent sock msg w).

Definition ReceiveMessage (sock : Socket) : M (option Message) :=
  fun w =>
    let (r, rest) := ReceiveMessage_stream (default [] (inbound w !! sock)) in
    (r, set_inbound sock rest w).

Definition Close (sock : Socket) : M unit :=
  fun w => if 0 <=? sock then (tt, add_closed sock w) else (tt, w).

End NetworkLayer.

(** ** file_io.cpp *)
Module File.


Definition AppendLine (filename line : string) : M unit :=
  fun w => (tt, set_files (fun fs => <[filename := default [] (fs !! filename) ++ [line]]> fs) w).

End File.

(** ** services.cpp *)

Definition kAuthMaxRetries : nat := 3.

(** [Join]: the parts with [sep] between them. *)
Fixpoint Join (parts : list string) (sep : string) : string :=
  match parts with
  | [] => EmptyString
  | [p] => p
  | p :: rest => (p ++ sep ++ Join rest sep)%string
  end.

(** The decimal text [operator<<] prints for an integer. *)
Definition decimal (z : Z) : string :=
  DecimalString.NilZero.string_of_int (Z.to_int z).

Definition FormatLogLine (e : LogEntry) : string :=
  (decimal (log_timestamp e) ++ " | " ++ decimal (event_type e)
     ++ " | " ++ actor e ++ " | " ++ target e ++ " | " ++ log_content e)%string.

Module LoggingService.


Definition Write (entry : LogEntry) : M unit :=
  fun w => File.AppendLine (g_current_log_file w) (FormatLogLine entry) w.

Definition LogFromMessage (msg : Message) : M unit :=
  Write (mkLogEntry (timestamp msg) (type msg) (sender_username msg)
                    (target_username msg) (content msg)).


End LoggingService.

Module UserManager.

Definition MakeServerCommand (content : string) : M Message :=
  let* now := NowEpochMs in
  ret (mkMessage (code COMMAND_RESPONSE) now "Server" "" content).

(** The registry operations; each runs as a whole under [g_mutex]. *)
Definition AddUser (user : User) (client_socket : Socket) : M unit :=
  fun w => (tt, set_users (insert (username user) (user, client_socket)) w).

Definition RemoveUser (username : string) : M unit :=
  fun w => (tt, set_users (delete username) w).

Definition CheckUniqueness (username : string) : M bool :=
  fun w => (bool_decide (g_users w !! username = None), w).

Definition GetSocket (username : string) : M Socket :=
  fun w => (match g_users w !! username with
            | None => -1
            | Some p => snd p
            end, w).

Definition GetAllUsernames : M (list string) :=
  fun w => (fst <$> map_to_list (g_users w), w).

(** The sockets are copied under the lock; the callbacks run after it
    is released.  [acc] stands for the variables the callback captures. *)
Definition ForEachUserSocket {S : Type} (callback : Socket -> S -> M S)
    (acc : S) : M S :=
  fun w =>
    let sockets := (fun kv => snd (snd kv)) <$> map_to_list (g_users w) in
    for_each sockets callback acc w.

(** [Authenticate]: [remaining] is [kAuthMaxRetries - retries]. *)
Fixpoint Authenticate_loop (remaining : nat) (client_socket : Socket)
    : M (option User) :=
  match remaining with
  | O =>
      let* fail := MakeServerCommand "AUTH_FAILED" in
      NetworkLayer.SendMessage client_socket fail ;;
      ret None
  | S remaining' =>
      let* prompt := MakeServerCommand "ENTER_USERNAME" in
      NetworkLayer.SendMessage client_socket prompt ;;
      let* replyOpt := NetworkLayer.ReceiveMessage client_socket in
      match replyOpt with
      | None => ret None
      | Some reply =>
          let username := content reply in
          let* unique := CheckUniqueness username in
          if unique : bool then
            let* now := NowEpochMs in
            let user := mkUser client_socket username true now in
            AddUser user client_socket ;;
            let* ok := MakeServerCommand "USERNAME_ACCEPTED" in
            NetworkLayer.SendMessage client_socket ok ;;
            ret (Some user)
          else
            let* taken := MakeServerCommand "USERNAME_TAKEN" in
            NetworkLayer.SendMessage client_socket taken ;;
            Authenticate_loop remaining' client_socket
      end
  end.

Definition Authenticate (client_socket : Socket) : M (option User) :=
  Authenticate_loop kAuthMaxRetries client_socket.

End UserManager.

Module MessageRouter.

Definition CollectAllSockets : M (list Socket) :=
  UserManager.ForEachUserSocket (fun s sockets => ret (sockets ++ [s])) [].

Definition BroadcastPublic (msg : Message) : M unit :=
  let* sockets := CollectAllSockets in
  for_each sockets
    (fun s _ => NetworkLayer.SendMessage s msg ;; ret tt) tt.

Definition SendPrivate (msg : Message) : M unit :=
  let* target_socket := UserManager.GetSocket (target_username msg) in
  if negb (target_socket =? -1) then
    NetworkLayer.SendMessage target_socket msg ;; ret tt
  else
    let* now := NowEpochMs in
    let notify :=
      mkMessage (code COMMAND_RESPONSE) now "Server" ""
                ("USER_NOT_FOUND:" ++ target_username msg)%string in
    let* sender_socket := UserManager.GetSocket (sender_username msg) in
    if negb (sender_socket =? -1) then
      NetworkLayer.SendMessage sender_socket notify ;; ret tt
    else ret tt.

End MessageRouter.

Module AnnouncementService.


End AnnouncementService.

Module CommandProcessor.

Definition Process (msg : Message) (client_socket : Socket) : M string :=
  if type msg =? code USER_LIST_REQUEST then
    let* names := UserManager.GetAllUsernames in
    let content := Join names "," in
    let* now := NowEpochMs in
    let resp := mkMessage (code USER_LIST_RESPONSE) now "Server" "" content in
    NetworkLayer.SendMessage client_socket resp ;;
    LoggingService.LogFromMessage resp ;;
    ret "CONTINUE"%string
  else if type msg =? code PRIVATE_MESSAGE then
    MessageRouter.SendPrivate msg ;;
    LoggingService.LogFromMessage msg ;;
    ret "CONTINUE"%string
  else if type msg =? code PUBLIC_MESSAGE then
    MessageRouter.BroadcastPublic msg ;;
    LoggingService.LogFromMessage msg ;;
    ret "CONTINUE"%string
  else if (type msg =? code COMMAND_RESPONSE) && String.eqb (content msg) "BYE" then
    let* now := NowEpochMs in
    let ack := mkMessage (code COMMAND_RESPONSE) now "Server" "" "GOODBYE" in
    NetworkLayer.SendMessage client_socket ack ;;
    ret "DISCONNECT"%string
  else
    let* now := NowEpochMs in
    let err := mkMessage (code COMMAND_RESPONSE) now "Server" "" "UNKNOWN_COMMAND" in
    NetworkLayer.SendMessage client_socket err ;;
    ret "CONTINUE"%string.

End CommandProcessor.

(** ** server.cpp *)
Module ClientHandler.

(** The receive loop of [ServeClient].  [fuel] bounds the number of
    iterations; every iteration that goes on has taken a frame out of
    the socket's stream. *)
Fixpoint ServeLoop (fuel : nat) (user : User) (client_socket : Socket)
    : M unit :=
  match fuel with
  | O => ret tt
  | S fuel' =>
      if connected user then
        let* incoming_opt := NetworkLayer.ReceiveMessage client_socket in
        match incoming_opt with
        | None => ret tt
        | Some incoming =>
            let incoming :=
              mkMessage (type incoming) (timestamp incoming) (username user)
                        (target_username incoming) (content incoming) in
            let* incoming :=
              if timestamp incoming =? 0 then
                let* now := NowEpochMs in
                ret (mkMessage (type incoming) now (sender_username incoming)
                               (target_username incoming) (content incoming))
              else ret incoming in
            let* result := CommandProcessor.Process incoming client_socket in
            if String.eqb result "DISCONNECT" then ret tt
            else ServeLoop fuel' user client_socket
        end
      else ret tt
  end.

(** The bytes still to come on a socket: no more frames than that. *)
Definition pending (client_socket : Socket) (w : World) : nat :=
  length (concat (default [] (inbound w !! client_socket))).

Definition ServeClient (client_socket : Socket) : M unit :=
  let* opt_user := UserManager.Authenticate client_socket in
  match opt_user with
  | None => NetworkLayer.Close client_socket
  | Some user =>
      let* now := NowEpochMs in
      let joinMsg :=
        mkMessage (code USER_JOINED) now (username user) ""
                  (username user ++ " joined")%string in
      MessageRouter.BroadcastPublic joinMsg ;;
      LoggingService.LogFromMessage joinMsg ;;
      (fun w => ServeLoop (S (pending client_socket w)) user client_socket w) ;;
      UserManager.RemoveUser (username user) ;;
      let* now := NowEpochMs in
      let leaveMsg :=
        mkMessage (code USER_LEFT) now (username user) ""
                  (username user ++ " left")%string in
      MessageRouter.BroadcastPublic leaveMsg ;;
      LoggingService.LogFromMessage leaveMsg ;;
      NetworkLayer.Close client_socket
  end.

End ClientHandler.

Module ConnectionManager.


End ConnectionManager.

(** ** Sessions authenticating side by side

    Each registry call of [Authenticate] holds [g_mutex] for its own
    duration only, so between two of them another session may run.  A
    session past its [ReceiveMessage] is at one of these points. *)
Module AuthRace.

Inductive AuthPoint :=
  | BeforeCheck (username : string)
  | BeforeAdd (user : User)
  | Returned (user : User)
  | Rejected.

(** From one point of [Authenticate] to the next. *)
Definition auth_step (client_socket : Socket) (pt : AuthPoint) : M AuthPoint :=
  match pt with
  | BeforeCheck username =>
      let* unique := UserManager.CheckUniqueness username in
      if unique : bool then
        let* now := NowEpochMs in
        ret (BeforeAdd (mkUser client_socket username true now))
      else
        let* taken := UserManager.MakeServerCommand "USERNAME_TAKEN" in
        NetworkLayer.SendMessage client_socket taken ;;
        ret Rejected
  | BeforeAdd user =>
      UserManager.AddUser user client_socket ;;
      let* ok := UserManager.MakeServerCommand "USERNAME_ACCEPTED" in
      NetworkLayer.SendMessage client_socket ok ;;
      ret (Returned user)
  | Returned user => ret (Returned user)
  | Rejected => ret Rejected
  end.

(** The sessions, each with its socket, and the order in which they are
    given the processor: [i] in the schedule lets session [i] run up to
    its next point. *)
Fixpoint run (schedule : list nat) (sessions : list (Socket * AuthPoint))
    : M (list (Socket * AuthPoint)) :=
  match schedule with
  | [] => ret sessions
  | i :: schedule' =>
      match sessions !! i with
      | None => run schedule' sessions
      | Some (client_socket, pt) =>
          let* pt' := auth_step client_socket pt in
          run schedule' (<[i := (client_socket, pt')]> sessions)
      end
  end.

Definition accepted (session : Socket * AuthPoint) : bool :=
  match snd session with
  | Returned _ => true
  | _ => false
  end.

End AuthRace.

(** ** client.cpp *)

Definition add_console_out (text : string) (w : World) : World :=
  mkWorld (g_users w) (g_current_log_file w) (files w) (inbound w)
          (sent w) (dead w) (closed w) (console_in w)
          (console_out w ++ [text]) (clock w) (ticks w).

Module Console.

(** [Print]: one more line on the terminal. *)
Definition Print (text : string) : M unit :=
  fun w => (tt, add_console_out text w).

End Console.

Module ClientCLI.

(** [std::string::find(char)]: the first position of [c], if any. *)
Fixpoint find (c : ascii) (s : string) : option nat :=
  match s with
  | EmptyString => None
  | String c' s' => if Ascii.eqb c' c then Some O else S <$> find c s'
  end.

(** [line.substr(pos)]. *)
Definition substr_from (pos : nat) (line : string) : string :=
  substring pos (String.length line - pos) line.

Definition starts_with_at (line : string) : bool :=
  match line with
  | String c _ => Ascii.eqb c "@"
  | EmptyString => false
  end.

(** [InputLoop] on the lines [Console::ReadLine] returns one after the
    other.  When they are used up the real loop goes on reading empty
    lines, which it skips. *)
Fixpoint InputLoop_lines (lines : list string) (sock : Socket) : M unit :=
  match lines with
  | [] => ret tt
  | line :: lines' =>
      if String.eqb line "" then InputLoop_lines lines' sock
      else
        let* now := NowEpochMs in
        if String.eqb line "/bye" then
          NetworkLayer.SendMessage sock
            (mkMessage (code COMMAND_RESPONSE) now "" "" "BYE") ;;
          NetworkLayer.Close sock
        else if String.eqb line "/list" then
          NetworkLayer.SendMessage sock
            (mkMessage (code USER_LIST_REQUEST) now "" "" "") ;;
          InputLoop_lines lines' sock
        else if starts_with_at line then
          match find " " line with
          | Some spacePos =>
              let target := substring 1 (spacePos - 1) line in
              let content := substr_from (spacePos + 1) line in
              NetworkLayer.SendMessage sock
                (mkMessage (code PRIVATE_MESSAGE) now "" target content) ;;
              InputLoop_lines lines' sock
          | None => InputLoop_lines lines' sock
          end
        else
          NetworkLayer.SendMessage sock
            (mkMessage (code PUBLIC_MESSAGE) now "" "" line) ;;
          InputLoop_lines lines' sock
  end.

Definition InputLoop (sock : Socket) : M unit :=
  fun w => InputLoop_lines (console_in w) sock (set_console_in [] w).

(** The [switch] of [ReceiveLoop]: what is printed for a message, by its
    type; a type that is none of the cases prints nothing. *)
Definition display (msg : Message) : M unit :=
  match of_code (type msg) with
  | Some USER_LIST_RESPONSE => Console.Print ("Online: " ++ content msg)
  | Some SYSTEM_ANNOUNCEMENT => Console.Print ("[SERVER] " ++ content msg)
  | Some PRIVATE_MESSAGE =>
      Console.Print ("[PM from " ++ sender_username msg ++ "] " ++ content msg)
  | Some PUBLIC_MESSAGE =>
      Console.Print (sender_username msg ++ ": " ++ content msg)
  | Some USER_JOINED =>
      Console.Print ("* " ++ sender_username msg ++ " joined the chat *")
  | Some USER_LEFT =>
      Console.Print ("* " ++ sender_username msg ++ " left the chat *")
  | _ => ret tt
  end%string.

(** [ReceiveLoop]; [fuel] bounds the number of turns, each of which takes
    a frame out of the socket's stream. *)
Fixpoint ReceiveLoop_turns (fuel : nat) (sock : Socket) : M unit :=
  match fuel with
  | O => ret tt
  | S fuel' =>
      let* opt_msg := NetworkLayer.ReceiveMessage sock in
      match opt_msg with
      | None => Console.Print "Disconnected from server."
      | Some msg =>
          if (type msg =? code COMMAND_RESPONSE)
             && String.eqb (content msg) "GOODBYE"
          then ret tt
          else
            (if String.prefix "USER_NOT_FOUND:" (content msg)
             then Console.Print ("User not found" ++ substr_from 14 (content msg))
             else ret tt) ;;
            display msg ;;
            ReceiveLoop_turns fuel' sock
      end
  end.

Definition ReceiveLoop (sock : Socket) : M unit :=
  fun w => ReceiveLoop_turns (S (ClientHandler.pending sock w)) sock w.

End ClientCLI.

(** ** Counting what was sent *)

Global Instance Message_eq_dec : EqDecision Message.
Proof. solve_decision. Defined.

(** The sockets of the registry in the order the map is walked through:
    what [ForEachUserSocket] copies under the lock. *)
Definition snapshot (users : gmap string (User * Socket)) : list Socket :=
  (fun kv => snd (snd kv)) <$> map_to_list users.

(** What was handed to [SendMessage] between [w] and [w']. *)
Definition newly_sent (w w' : World) : list (Socket * Message) :=
  drop (length (sent w)) (sent w').

(** How many times [msg] was sent to [sock]. *)
Definition copies (sock : Socket) (msg : Message)
    (l : list (Socket * Message)) : nat :=
  length (filter (fun p => p = (sock, msg)) l).

(** The message [MakeServerCommand] builds when the clock reads [now]. *)
Definition server_command (content : string) (now : Z) : Message :=
  mkMessage (code COMMAND_RESPONSE) now "Server" "" content.

(** How many of the messages are prompts for a username. *)
Definition prompts (l : list (Socket * Message)) : nat :=
  length (filter (fun p => content (snd p) = "ENTER_USERNAME"%string) l).

(** ** Well-formed values *)

(** What a [Message] object can hold: an [int] for the type, a
    [long long] for the timestamp, and strings whose size [Serialize] can
    write as a non-negative [int32_t]. *)
Definition wire_message (m : Message) : Prop :=
  int32_range (type m)
  /\ int64_range (timestamp m)
  /\ Z.of_nat (String.length (sender_username m)) < 2 ^ 31
  /\ Z.of_nat (String.length (target_username m)) < 2 ^ 31
  /\ Z.of_nat (String.length (content m)) < 2 ^ 31.

(** A valid message: moreover its type is one of the enumerators. *)
Definition valid_message (m : Message) : Prop :=
  (exists t : MessageType, type m = code t)
  /\ int64_range (timestamp m)
  /\ Z.of_nat (String.length (sender_username m)) < 2 ^ 31
  /\ Z.of_nat (String.length (target_username m)) < 2 ^ 31
  /\ Z.of_nat (String.length (content m)) < 2 ^ 31.

(** The bytes a socket delivers before a [recv] on it fails: the chunks of
    its stream up to the first result [<= 0]. *)
Fixpoint available (stream : list (list ascii)) : list ascii :=
  match stream with
  | [] => []
  | chunk :: stream' =>
      if (length chunk =? 0)%nat then [] else chunk ++ available stream'
  end.

(** A buffer of 24 bytes: type 8, timestamp 0 and three strings of
    declared length 0. *)
Definition buffer_type_8 : list ascii :=
  [zero; zero; zero; "008"%char;
   zero; zero; zero; zero; zero; zero; zero; zero;
   zero; zero; zero; zero;
   zero; zero; zero; zero;
   zero; zero; zero; zero].

(** ** Sample worlds *)

(** A server with nobody registered, nothing received and nothing sent. *)
Definition world0 : World :=
  mkWorld ∅ "chat_history.log" ∅ ∅ [] ∅ [] [] []
          (fun n => 1700000000000 + Z.of_nat n) 0.


(** [world0] with alice on socket 4 and bob on socket 5. *)
Definition world_ab : World :=
  set_users (fun _ => <["alice"%string := (mkUser 4 "alice" true 1699999999000, 4)]>
                       (<["bob"%string := (mkUser 5 "bob" true 1699999999500, 5)]> ∅))
            world0.

(** A reply to the prompt, as the client sends it. *)
Definition reply_frame (name : string) : list ascii :=
  NetworkLayer.frame (mkMessage (code COMMAND_RESPONSE) 1700000000050 "" "" name).

(** [world_ab] with a new connection on socket 6 whose peer offers alice,
    bob and alice again. *)
Definition world_three_taken : World :=
  set_inbound 6 [reply_frame "alice"; reply_frame "bob"; reply_frame "alice"]
              world_ab.

(** [world_ab] with a public message without timestamp waiting on alice's
    socket. *)
Definition world_hi : World :=
  set_inbound 4 [NetworkLayer.frame (mkMessage (code PUBLIC_MESSAGE) 0 "" "" "hi")]
              world_ab.

(** Two sessions, on sockets 4 and 5, that have both received alice as the
    name offered and are about to check it. *)
Definition two_alices : list (Socket * AuthRace.AuthPoint) :=
  [(4, AuthRace.BeforeCheck "alice"); (5, AuthRace.BeforeCheck "alice")].

(** ** Measures used by the further properties *)


(** From [w] to [w'] the registry and the closed sockets are the same, and
    what was sent has only been added to. *)
Definition only_sent_more (w w' : World) : Prop :=
  g_users w' = g_users w
  /\ closed w' = closed w
  /\ exists extra, sent w' = sent w ++ extra.

(** [world_ab] with a new connection on socket 6 whose peer offers alice,
    then carol, and then goes away. *)
Definition world_retry : World :=
  set_inbound 6 [reply_frame "alice"; reply_frame "carol"] world_ab.

(** [world_ab] where alice's client has sent BYE and then a public
    message. *)
Definition world_bye : World :=
  set_inbound 4
    [NetworkLayer.frame (mkMessage (code COMMAND_RESPONSE) 1700000000200 "" "" "BYE");
     NetworkLayer.frame (mkMessage (code PUBLIC_MESSAGE) 1700000000300 "" "" "late")]
    world_ab.


(** A client on socket 3 to which the server has sent the notice for a
    private message to carol, who is not registered, and then GOODBYE. *)
Definition world_client : World :=
  set_inbound 3
    [NetworkLayer.frame
       (mkMessage (code COMMAND_RESPONSE) 1700000000400 "Server" ""
                  "USER_NOT_FOUND:carol");
     NetworkLayer.frame (server_command "GOODBYE" 1700000000500);
     NetworkLayer.frame
       (mkMessage (code PUBLIC_MESSAGE) 1700000000600 "bob" "" "too late")]
    world0.

(** * Properties *)

(** ** Bytes and fixed-width integers *)

Lemma uchar_char_of (x : Z) : uchar (char_of x) = x mod 256.
Proof.
  unfold uchar, char_of.
  change 255 with (Z.ones 8). rewrite Z.land_ones by lia.
  change (2 ^ 8) with 256.
  assert (Hr : 0 <= x mod 256 < 256) by (apply Z.mod_pos_bound; lia).
  rewrite N_ascii_embedding.
  - apply Z2N.id; lia.
  - change 256%N with (Z.to_N 256). apply Z2N.inj_lt; lia.
Qed.

Lemma uchar_range (c : ascii) : 0 <= uchar c < 256.
Proof.
  unfold uchar. pose proof (N_ascii_bounded c) as Hb. lia.
Qed.

Lemma lor_shiftl_byte (a b : Z) :
  0 <= b < 256 -> Z.lor (Z.shiftl a 8) b = a * 256 + b.
Proof.
  intros Hb.
  assert (Hland : Z.land (Z.shiftl a 8) b = 0).
  { apply Z.bits_inj'. intros n Hn.
    rewrite Z.land_spec, Z.bits_0.
    destruct (Z.lt_ge_cases n 8) as [Hlt | Hge].
    - rewrite Z.shiftl_spec_low by lia. reflexivity.
    - replace b with (b mod 2 ^ 8) by (apply Z.mod_small; lia).
      rewrite Z.mod_pow2_bits_high by lia. apply andb_false_r. }
  pose proof (Z.add_lor_land (Z.shiftl a 8) b) as Hadd.
  rewrite Hland in Hadd.
  rewrite (Z.shiftl_mul_pow2 a 8) in Hadd at 2 by lia.
  change (2 ^ 8) with 256 in Hadd. lia.
Qed.

Lemma to_i32_to_u32 (v : Z) : int32_range v -> to_i32 (to_u32 v) = v.
Proof.
  unfold int32_range, to_i32, to_u32. intros Hv.
  destruct (Z.lt_ge_cases v 0).
  - replace (v mod 2 ^ 32) with (v + 2 ^ 32).
    + replace (v + 2 ^ 32 + 2 ^ 31) with (v + 2 ^ 31 + 1 * 2 ^ 32) by lia.
      rewrite Z.mod_add by lia. rewrite Z.mod_small; lia.
    + symmetry. replace v with (v + 2 ^ 32 + (-1) * 2 ^ 32) at 1 by lia.
      rewrite Z.mod_add by lia. apply Z.mod_small; lia.
  - rewrite (Z.mod_small v) by lia. rewrite Z.mod_small; lia.
Qed.

Lemma to_i64_to_u64 (v : Z) : int64_range v -> to_i64 (to_u64 v) = v.
Proof.
  unfold int64_range, to_i64, to_u64. intros Hv.
  destruct (Z.lt_ge_cases v 0).
  - replace (v mod 2 ^ 64) with (v + 2 ^ 64).
    + replace (v + 2 ^ 64 + 2 ^ 63) with (v + 2 ^ 63 + 1 * 2 ^ 64) by lia.
      rewrite Z.mod_add by lia. rewrite Z.mod_small; lia.
    + symmetry. replace v with (v + 2 ^ 64 + (-1) * 2 ^ 64) at 1 by lia.
      rewrite Z.mod_add by lia. apply Z.mod_small; lia.
  - rewrite (Z.mod_small v) by lia. rewrite Z.mod_small; lia.
Qed.

(** One more byte of [u], most significant first. *)
Lemma div_pow2_byte (u i : Z) :
  0 <= i ->
  u / 2 ^ (8 * (i + 1)) * 256 + (u / 2 ^ (8 * i)) mod 256 = u / 2 ^ (8 * i).
Proof.
  intros Hi.
  replace (8 * (i + 1)) with (8 * i + 8) by lia.
  rewrite Z.pow_add_r by lia. change (2 ^ 8) with 256.
  rewrite <- Z.div_div by lia.
  pose proof (Z.div_mod (u / 2 ^ (8 * i)) 256). lia.
Qed.

Lemma be_value_write_int32 (v : Z) :
  NetworkLayer.be_value (NetworkLayer.write_int32 v) = to_u32 v.
Proof.
  unfold NetworkLayer.be_value, NetworkLayer.write_int32. cbn [fold_left].
  assert (Hu : 0 <= to_u32 v < 2 ^ 32) by (apply Z.mod_pos_bound; lia).
  set (u := to_u32 v) in *.
  rewrite !uchar_char_of, !Z.shiftr_div_pow2 by lia.
  rewrite !lor_shiftl_byte by (apply Z.mod_pos_bound; lia).
  change (2 ^ 32) with 4294967296 in Hu.
  change (2 ^ 24) with 16777216. change (2 ^ 16) with 65536.
  change (2 ^ 8) with 256.
  Z.to_euclidean_division_equations. lia.
Qed.

Lemma read_int64_fold_write_int64 (v : Z) :
  fold_left (fun uv c => Z.lor (to_u64 (Z.shiftl uv 8)) (uchar c))
            (NetworkLayer.write_int64 v) 0 = to_u64 v.
Proof.
  unfold NetworkLayer.write_int64.
  assert (Hu : 0 <= to_u64 v < 2 ^ 64) by (apply Z.mod_pos_bound; lia).
  set (u := to_u64 v) in *.
  assert (Hstep : forall i, 0 <= i ->
    Z.lor (to_u64 (Z.shiftl (u / 2 ^ (8 * (i + 1))) 8))
          (uchar (char_of (Z.land (Z.shiftr u (i * 8)) 255)))
    = u / 2 ^ (8 * i)).
  { intros i Hi.
    rewrite uchar_char_of. change 255 with (Z.ones 8).
    rewrite Z.land_ones by lia. change (2 ^ 8) with 256.
    rewrite Z.mod_mod by lia.
    rewrite Z.shiftr_div_pow2 by lia. replace (i * 8) with (8 * i) by lia.
    assert (Hd : 0 <= u / 2 ^ (8 * (i + 1)) * 256 < 2 ^ 64).
    { pose proof (div_pow2_byte u i Hi) as Hb.
      assert (0 <= u / 2 ^ (8 * (i + 1))) by (apply Z.div_pos; lia).
      assert (0 <= (u / 2 ^ (8 * i)) mod 256 < 256)
        by (apply Z.mod_pos_bound; lia).
      assert (u / 2 ^ (8 * i) <= u).
      { apply Z.div_le_upper_bound; [lia |].
        assert (1 <= 2 ^ (8 * i)) by (apply Z.pow_le_mono_r with (b := 0) (c := 8 * i) (a := 2); lia).
        nia. }
      lia. }
    unfold to_u64. rewrite Z.shiftl_mul_pow2 by lia. change (2 ^ 8) with 256.
    rewrite (Z.mod_small _ _ Hd).
    rewrite <- (Z.shiftl_mul_pow2 _ 8) by lia.
    rewrite lor_shiftl_byte by (apply Z.mod_pos_bound; lia).
    apply div_pow2_byte; lia. }
  cbn [List.map fold_left].
  replace 0 with (u / 2 ^ (8 * (7 + 1))) at 1
    by (apply Z.div_small; exact Hu).
  rewrite (Hstep 7) by lia. change (8 * 7) with (8 * (6 + 1)).
  rewrite (Hstep 6) by lia. change (8 * 6) with (8 * (5 + 1)).
  rewrite (Hstep 5) by lia. change (8 * 5) with (8 * (4 + 1)).
  rewrite (Hstep 4) by lia. change (8 * 4) with (8 * (3 + 1)).
  rewrite (Hstep 3) by lia. change (8 * 3) with (8 * (2 + 1)).
  rewrite (Hstep 2) by lia. change (8 * 2) with (8 * (1 + 1)).
  rewrite (Hstep 1) by lia. change (8 * 1) with (8 * (0 + 1)).
  rewrite (Hstep 0) by lia. apply Z.div_1_r.
Qed.

(** ** The wire codec *)

Lemma length_list_ascii_of_string (s : string) :
  length (list_ascii_of_string s) = String.length s.
Proof. induction s as [| c s IH]; simpl; [reflexivity | now rewrite IH]. Qed.

Lemma length_write_string (s : string) :
  length (NetworkLayer.write_string s) = (4 + String.length s)%nat.
Proof.
  unfold NetworkLayer.write_string.
  rewrite length_app, length_list_ascii_of_string. reflexivity.
Qed.

Lemma take_drop_middle {A} (pre mid post : list A) (pos n : nat) :
  pos = length pre -> n = length mid ->
  take n (drop pos (pre ++ mid ++ post)) = mid.
Proof.
  intros -> ->. rewrite drop_app_length. apply take_app_length.
Qed.

Lemma read_int32_at (data pre post : list ascii) (v : Z) (pos : nat) :
  data = pre ++ NetworkLayer.write_int32 v ++ post ->
  pos = length pre ->
  NetworkLayer.read_int32 data pos = Some (to_i32 (to_u32 v), (pos + 4)%nat).
Proof.
  intros -> ->. unfold NetworkLayer.read_int32.
  rewrite !length_app.
  change (length (NetworkLayer.write_int32 v)) with 4%nat.
  destruct (Nat.ltb_spec (length pre + (4 + length post)) (length pre + 4));
    [lia |].
  rewrite (take_drop_middle pre (NetworkLayer.write_int32 v) post)
    by reflexivity.
  now rewrite be_value_write_int32.
Qed.

Lemma read_int64_at (data pre post : list ascii) (v : Z) (pos : nat) :
  data = pre ++ NetworkLayer.write_int64 v ++ post ->
  pos = length pre ->
  NetworkLayer.read_int64 data pos = Some (to_i64 (to_u64 v), (pos + 8)%nat).
Proof.
  intros -> ->. unfold NetworkLayer.read_int64.
  rewrite !length_app.
  change (length (NetworkLayer.write_int64 v)) with 8%nat.
  destruct (Nat.ltb_spec (length pre + (8 + length post)) (length pre + 8));
    [lia |].
  rewrite (take_drop_middle pre (NetworkLayer.write_int64 v) post)
    by reflexivity.
  now rewrite read_int64_fold_write_int64.
Qed.

Lemma read_string_at (data pre post : list ascii) (s : string) (pos : nat) :
  data = pre ++ NetworkLayer.write_string s ++ post ->
  pos = length pre ->
  Z.of_nat (String.length s) < 2 ^ 31 ->
  NetworkLayer.read_string data pos
  = Some (s, (pos + 4 + String.length s)%nat).
Proof.
  intros Hdata Hpos Hlen. unfold NetworkLayer.read_string, NetworkLayer.rbind.
  assert (Hr : int32_range (Z.of_nat (String.length s)))
    by (unfold int32_range; lia).
  assert (Hsz : to_i32 (Z.of_nat (String.length s)) = Z.of_nat (String.length s)).
  { unfold to_i32. rewrite Z.mod_small; lia. }
  rewrite (read_int32_at data pre (list_ascii_of_string s ++ post)
             (to_i32 (Z.of_nat (String.length s))) pos).
  2:{ rewrite Hdata. unfold NetworkLayer.write_string.
      now rewrite <- !app_assoc. }
  2: exact Hpos.
  rewrite Hsz, (to_i32_to_u32 _ Hr).
  subst data pos. rewrite !length_app, length_write_string.
  destruct (Z.ltb_spec (Z.of_nat (String.length s)) 0); [lia |].
  destruct (Z.ltb_spec
              (Z.of_nat (length pre + (4 + String.length s + length post)))
              (Z.of_nat (length pre + 4) + Z.of_nat (String.length s)));
    [lia |].
  cbn [orb]. rewrite Nat2Z.id.
  unfold NetworkLayer.write_string. rewrite <- app_assoc, app_assoc.
  rewrite (take_drop_middle _ (list_ascii_of_string s) post).
  - now rewrite string_of_list_ascii_of_string.
  - rewrite length_app. reflexivity.
  - now rewrite length_list_ascii_of_string.
Qed.

(** Decoding what [Serialize] wrote, whatever follows it in the buffer. *)
Lemma Deserialize_encoded_prefix (m : Message) (rest : list ascii) :
  wire_message m ->
  NetworkLayer.Deserialize (NetworkLayer.Serialize m ++ rest) = Some m.
Proof.
  intros (Hty & Hts & Hs & Ht & Hc). destruct m as [ty ts s t c].
  cbn [type timestamp sender_username target_username content] in *.
  unfold NetworkLayer.Deserialize, NetworkLayer.Serialize.
  cbn [type timestamp sender_username target_username content].
  set (data := (_ ++ _) ++ rest).
  unfold NetworkLayer.rbind at 1.
  rewrite (read_int32_at data [] (NetworkLayer.write_int64 ts
             ++ NetworkLayer.write_string s ++ NetworkLayer.write_string t
             ++ NetworkLayer.write_string c ++ rest) ty 0)
    by (subst data; now rewrite <- ?app_assoc).
  rewrite (to_i32_to_u32 _ Hty).
  unfold NetworkLayer.rbind at 1.
  rewrite (read_int64_at data (NetworkLayer.write_int32 ty)
             (NetworkLayer.write_string s ++ NetworkLayer.write_string t
             ++ NetworkLayer.write_string c ++ rest) ts)
    by (subst data; now rewrite <- ?app_assoc).
  rewrite (to_i64_to_u64 _ Hts).
  unfold NetworkLayer.rbind at 1.
  rewrite (read_string_at data
             (NetworkLayer.write_int32 ty ++ NetworkLayer.write_int64 ts)
             (NetworkLayer.write_string t ++ NetworkLayer.write_string c
              ++ rest) s)
    by (first [exact Hs | subst data; now rewrite <- ?app_assoc]).
  unfold NetworkLayer.rbind at 1.
  rewrite (read_string_at data
             (NetworkLayer.write_int32 ty ++ NetworkLayer.write_int64 ts
              ++ NetworkLayer.write_string s)
             (NetworkLayer.write_string c ++ rest) t)
    by (first [exact Ht | subst data; rewrite <- ?app_assoc; try reflexivity;
               rewrite ?length_app, ?length_write_string; simpl; lia]).
  unfold NetworkLayer.rbind at 1.
  rewrite (read_string_at data
             (NetworkLayer.write_int32 ty ++ NetworkLayer.write_int64 ts
              ++ NetworkLayer.write_string s ++ NetworkLayer.write_string t)
             rest c)
    by (first [exact Hc | subst data; rewrite <- ?app_assoc; try reflexivity;
               rewrite ?length_app, ?length_write_string; simpl; lia]).
  reflexivity.
Qed.

(** C2: for every valid message (type among the enumerators, timestamp an
    int64, string sizes fitting a non-negative int32), decoding the encoded
    message gives back the message: type, timestamp, sender, target and
    content. *)
Theorem Deserialize_Serialize (m : Message) :
  valid_message m ->
  NetworkLayer.Deserialize (NetworkLayer.Serialize m) = Some m.
Proof.
  intros ((t & Ht) & Hts & Hs & Htg & Hc).
  rewrite <- (app_nil_r (NetworkLayer.Serialize m)).
  apply Deserialize_encoded_prefix.
  split; [| tauto].
  rewrite Ht. unfold int32_range. destruct t; cbn; lia.
Qed.

Lemma Deserialize_Serialize_witness :
  valid_message (mkMessage (code PRIVATE_MESSAGE) 1700000000000 "alice" "bob" "hi")
  /\ NetworkLayer.Deserialize
       (NetworkLayer.Serialize
          (mkMessage (code PRIVATE_MESSAGE) 1700000000000 "alice" "bob" "hi"))
     = Some (mkMessage (code PRIVATE_MESSAGE) 1700000000000 "alice" "bob" "hi").
Proof.
  assert (Hv : valid_message
            (mkMessage (code PRIVATE_MESSAGE) 1700000000000 "alice" "bob" "hi")).
  { split; [exists PRIVATE_MESSAGE; reflexivity |].
    unfold int64_range; cbn; lia. }
  split; [exact Hv | exact (Deserialize_Serialize _ Hv)].
Defined.

(** A string whose declared length is negative or larger than what is left
    of the buffer makes [read_string] throw. *)
Lemma read_string_short (data pre rest : list ascii) (n : Z) (pos : nat) :
  data = pre ++ NetworkLayer.write_int32 n ++ rest ->
  pos = length pre ->
  int32_range n ->
  n < 0 \/ Z.of_nat (length rest) < n ->
  NetworkLayer.read_string data pos = None.
Proof.
  intros Hdata Hpos Hn Hshort.
  unfold NetworkLayer.read_string, NetworkLayer.rbind.
  rewrite (read_int32_at data pre rest n pos Hdata Hpos).
  rewrite (to_i32_to_u32 _ Hn).
  subst data pos. rewrite !length_app.
  change (length (NetworkLayer.write_int32 n)) with 4%nat.
  destruct (Z.ltb_spec n 0) as [Hneg | Hpos]; [reflexivity |].
  destruct (Z.ltb_spec (Z.of_nat (length pre + (4 + length rest)))
              (Z.of_nat (length pre + 4) + n)); [reflexivity | lia].
Qed.

(** C3, counterexample: the buffer with type 8 is decoded, and the message
    produced has a type that is none of the enumerators. *)
Lemma Deserialize_type_unchecked :
  NetworkLayer.Deserialize buffer_type_8 = Some (mkMessage 8 0 "" "" "")
  /\ of_code 8 = None
  /\ ~ (forall data m, NetworkLayer.Deserialize data = Some m ->
                       0 <= type m <= 7).
Proof.
  assert (H8 : NetworkLayer.Deserialize buffer_type_8
               = Some (mkMessage 8 0 "" "" ""))
    by (vm_compute; reflexivity).
  split; [exact H8 |]. split; [reflexivity |].
  intros Hall. specialize (Hall _ _ H8). cbn in Hall. lia.
Qed.

(** C3, amended: decoding fails whenever the declared length of the sender,
    the target or the content is negative or larger than the number of
    bytes that remain after it ([done] are the strings decoded before it);
    the type is not checked: every buffer that starts with the encoding of
    a message whose type is any int32, inside 0..7 or not, is decoded to
    that message. *)
Theorem Deserialize_fails_on_short_string_only :
  (forall (ty ts n : Z) (done : list string) (rest : list ascii),
      (length done <= 2)%nat ->
      Forall (fun s => Z.of_nat (String.length s) < 2 ^ 31) done ->
      int32_range n ->
      n < 0 \/ Z.of_nat (length rest) < n ->
      NetworkLayer.Deserialize
        (NetworkLayer.write_int32 ty ++ NetworkLayer.write_int64 ts
           ++ concat (List.map NetworkLayer.write_string done)
           ++ NetworkLayer.write_int32 n ++ rest) = None)
  /\ (forall (m : Message) (rest : list ascii),
        wire_message m ->
        NetworkLayer.Deserialize (NetworkLayer.Serialize m ++ rest) = Some m).
Proof.
  split; [| exact Deserialize_encoded_prefix].
  intros ty ts n done rest Hlen Hdone Hn Hshort.
  unfold NetworkLayer.Deserialize.
  set (data := _ ++ _).
  unfold NetworkLayer.rbind at 1.
  rewrite (read_int32_at data [] (NetworkLayer.write_int64 ts
             ++ concat (List.map NetworkLayer.write_string done)
             ++ NetworkLayer.write_int32 n ++ rest) ty 0)
    by reflexivity.
  unfold NetworkLayer.rbind at 1.
  rewrite (read_int64_at data (NetworkLayer.write_int32 ty)
             (concat (List.map NetworkLayer.write_string done)
              ++ NetworkLayer.write_int32 n ++ rest) ts)
    by reflexivity.
  destruct done as [| s1 [| s2 [| s3 done]]]; cbn [List.map concat] in data.
  - unfold NetworkLayer.rbind at 1.
    rewrite (read_string_short data
               (NetworkLayer.write_int32 ty ++ NetworkLayer.write_int64 ts)
               rest n); try assumption; try reflexivity.
  - apply Forall_cons in Hdone as [Hs1 _].
    unfold NetworkLayer.rbind at 1.
    rewrite (read_string_at data
               (NetworkLayer.write_int32 ty ++ NetworkLayer.write_int64 ts)
               (NetworkLayer.write_int32 n ++ rest) s1)
      by (first [exact Hs1 | subst data; now rewrite <- ?app_assoc]).
    unfold NetworkLayer.rbind at 1.
    rewrite (read_string_short data
               (NetworkLayer.write_int32 ty ++ NetworkLayer.write_int64 ts
                ++ NetworkLayer.write_string s1)
               rest n); try assumption; try reflexivity.
    + subst data. now rewrite <- ?app_assoc.
    + rewrite ?length_app, ?length_write_string. simpl. lia.
  - apply Forall_cons in Hdone as [Hs1 Hdone].
    apply Forall_cons in Hdone as [Hs2 _].
    unfold NetworkLayer.rbind at 1.
    rewrite (read_string_at data
               (NetworkLayer.write_int32 ty ++ NetworkLayer.write_int64 ts)
               (NetworkLayer.write_string s2
                ++ NetworkLayer.write_int32 n ++ rest) s1)
      by (first [exact Hs1 | subst data; now rewrite <- ?app_assoc]).
    unfold NetworkLayer.rbind at 1.
    rewrite (read_string_at data
               (NetworkLayer.write_int32 ty ++ NetworkLayer.write_int64 ts
                ++ NetworkLayer.write_string s1)
               (NetworkLayer.write_int32 n ++ rest) s2)
      by (first [exact Hs2 | subst data; rewrite <- ?app_assoc; try reflexivity;
                 rewrite ?length_app, ?length_write_string; simpl; lia]).
    unfold NetworkLayer.rbind at 1.
    rewrite (read_string_short data
               (NetworkLayer.write_int32 ty ++ NetworkLayer.write_int64 ts
                ++ NetworkLayer.write_string s1 ++ NetworkLayer.write_string s2)
               rest n); try assumption; try reflexivity.
    + subst data. now rewrite <- ?app_assoc.
    + rewrite ?length_app, ?length_write_string. simpl. lia.
  - simpl in Hlen. lia.
Qed.

Lemma Deserialize_fails_on_short_string_only_witness :
  NetworkLayer.Deserialize
    (NetworkLayer.write_int32 0 ++ NetworkLayer.write_int64 0
       ++ concat (List.map NetworkLayer.write_string ["alice"%string])
       ++ NetworkLayer.write_int32 5 ++ ["b"%char; "o"%char]) = None
  /\ NetworkLayer.Deserialize
       (NetworkLayer.Serialize (mkMessage 8 0 "" "" "") ++ []) 
     = Some (mkMessage 8 0 "" "" "").
Proof.
  split.
  - apply (proj1 Deserialize_fails_on_short_string_only).
    + simpl; lia.
    + repeat constructor; cbn; lia.
    + unfold int32_range; lia.
    + right; simpl; lia.
  - apply (proj2 Deserialize_fails_on_short_string_only).
    unfold wire_message, int32_range, int64_range; cbn; lia.
Defined.

(** ** Receiving a frame *)

(** [recv_all] delivers the next [len] bytes that arrive before a failing
    [recv], and fails when there are fewer. *)
Lemma recv_all_available (stream : list (list ascii)) (len : nat) :
  if (len <=? length (available stream))%nat
  then fst (NetworkLayer.recv_all stream len) = Some (take len (available stream))
       /\ available (snd (NetworkLayer.recv_all stream len))
          = drop len (available stream)
  else fst (NetworkLayer.recv_all stream len) = None.
Proof.
  revert len. induction stream as [| chunk stream IH]; intros len.
  - destruct len; cbn; auto.
  - destruct len as [| len']; [cbn; auto |].
    cbn [NetworkLayer.recv_all available].
    assert (Hlen : (0 < S len')%nat) by lia. set (len := S len') in *.
    destruct (Nat.eqb_spec (length chunk) 0) as [Hz | Hnz]; [reflexivity |].
    rewrite length_app.
    destruct (Nat.leb_spec (length chunk) len) as [Hle | Hgt].
    + specialize (IH (len - length chunk)%nat).
      destruct (NetworkLayer.recv_all stream (len - length chunk)) as [r rest].
      cbn [fst snd] in *.
      destruct (Nat.leb_spec (len - length chunk) (length (available stream)))
        as [Hin | Hout].
      * destruct (Nat.leb_spec len (length chunk + length (available stream)));
          [| lia].
        destruct IH as [-> ->]. cbn [fmap option_fmap option_map].
        rewrite take_app, drop_app.
        rewrite (take_ge chunk) by lia. rewrite (drop_ge chunk) by lia.
        split; reflexivity.
      * destruct (Nat.leb_spec len (length chunk + length (available stream)));
          [lia |].
        rewrite IH. reflexivity.
    + destruct (Nat.leb_spec len (length chunk + length (available stream)));
        [| lia].
      cbn [fst snd available].
      rewrite length_drop.
      destruct (Nat.eqb_spec (length chunk - len) 0); [lia |].
      rewrite take_app, drop_app.
      replace (len - length chunk)%nat with 0%nat by lia.
      rewrite take_0, drop_0, app_nil_r. split; reflexivity.
Qed.

(** What [ReceiveMessage] returns, told from the bytes that arrive. *)
Lemma ReceiveMessage_stream_available (stream : list (list ascii)) :
  fst (NetworkLayer.ReceiveMessage_stream stream)
  = let bytes := available stream in
    if (length bytes <? 4)%nat then None
    else
      let total_len := to_i32 (NetworkLayer.be_value (take 4 bytes)) in
      if total_len <=? 0 then None
      else if Z.of_nat (length bytes) <? 4 + total_len then None
      else NetworkLayer.Deserialize (take (Z.to_nat total_len) (drop 4 bytes)).
Proof.
  unfold NetworkLayer.ReceiveMessage_stream. cbv zeta.
  pose proof (recv_all_available stream 4) as H4.
  destruct (NetworkLayer.recv_all stream 4) as [r rest]. cbn [fst snd] in H4.
  destruct (Nat.ltb_spec (length (available stream)) 4) as [Hlt | Hge].
  - destruct (Nat.leb_spec 4 (length (available stream))); [lia |].
    rewrite H4. reflexivity.
  - destruct (Nat.leb_spec 4 (length (available stream))); [| lia].
    destruct H4 as [-> Hrest].
    set (total_len := to_i32 _).
    destruct (Z.leb_spec total_len 0) as [Hnp | Hp]; [reflexivity |].
    pose proof (recv_all_available rest (Z.to_nat total_len)) as Hn.
    destruct (NetworkLayer.recv_all rest (Z.to_nat total_len)) as [r' rest'].
    cbn [fst snd] in Hn. rewrite Hrest, length_drop in Hn.
    destruct (Z.ltb_spec (Z.of_nat (length (available stream)))
                (4 + total_len)) as [Hshort | Hfull].
    + destruct (Nat.leb_spec (Z.to_nat total_len)
                  (length (available stream) - 4)); [lia |].
      rewrite Hn. reflexivity.
    + destruct (Nat.leb_spec (Z.to_nat total_len)
                  (length (available stream) - 4)); [| lia].
      destruct Hn as [-> _]. reflexivity.
Qed.

(** What [SendMessage] writes for a message is what [ReceiveMessage] reads
    back as that message, when it arrives whole. *)
Lemma ReceiveMessage_stream_frame (m : Message) :
  wire_message m ->
  Z.of_nat (length (NetworkLayer.Serialize m)) < 2 ^ 31 ->
  fst (NetworkLayer.ReceiveMessage_stream [NetworkLayer.frame m]) = Some m.
Proof.
  intros Hm Hlen. rewrite ReceiveMessage_stream_available. cbv zeta.
  set (serialized := NetworkLayer.Serialize m) in *.
  assert (Hpos : (12 <= length serialized)%nat).
  { subst serialized. unfold NetworkLayer.Serialize.
    rewrite !length_app. cbn [length NetworkLayer.write_int32
      NetworkLayer.write_int64 List.map]. lia. }
  assert (Hframe : NetworkLayer.frame m
                   = NetworkLayer.write_int32 (Z.of_nat (length serialized))
                     ++ serialized).
  { unfold NetworkLayer.frame. fold serialized. cbv zeta.
    unfold to_i32 at 1. rewrite Z.mod_small by lia.
    now replace (Z.of_nat (length serialized) + 2 ^ 31 - 2 ^ 31)
      with (Z.of_nat (length serialized)) by lia. }
  assert (Hav : available [NetworkLayer.frame m] = NetworkLayer.frame m).
  { cbn [available]. rewrite Hframe, length_app. cbn [length NetworkLayer.write_int32].
    cbn [Nat.eqb Nat.add]. apply app_nil_r. }
  rewrite Hav, Hframe, length_app.
  change (length (NetworkLayer.write_int32 (Z.of_nat (length serialized))))
    with 4%nat.
  destruct (Nat.ltb_spec (4 + length serialized) 4); [lia |].
  rewrite take_app_length' by reflexivity.
  rewrite be_value_write_int32, to_i32_to_u32 by (unfold int32_range; lia).
  destruct (Z.leb_spec (Z.of_nat (length serialized)) 0); [lia |].
  destruct (Z.ltb_spec (Z.of_nat (4 + length serialized))
              (4 + Z.of_nat (length serialized))); [lia |].
  rewrite drop_app_length' by reflexivity.
  rewrite Nat2Z.id, take_ge by lia.
  rewrite <- (app_nil_r serialized). subst serialized.
  now apply Deserialize_encoded_prefix.
Qed.



(** ** The router *)

Lemma SendPrivate_unknown_target_eq (msg : Message) (w : World) :
  g_users w !! target_username msg = None ->
  MessageRouter.SendPrivate msg w
  = (tt,
     let notify :=
       mkMessage (code COMMAND_RESPONSE) (clock w (ticks w)) "Server" ""
                 ("USER_NOT_FOUND:" ++ target_username msg)%string in
     match g_users w !! sender_username msg with
     | Some p => if snd p =? -1 then tick w else add_sent (snd p) notify (tick w)
     | None => tick w
     end).
Proof.
  intros Htarget.
  unfold MessageRouter.SendPrivate, bind, UserManager.GetSocket, NowEpochMs.
  cbv beta. rewrite Htarget. cbv beta iota.
  change (negb (-1 =? -1)) with false. cbv beta iota.
  cbn [g_users tick].
  destruct (g_users w !! sender_username msg) as [[user s] |]; cbn [snd].
  - destruct (s =? -1); reflexivity.
  - reflexivity.
Qed.

(** C6: when the target of a private message is not registered, nothing is
    sent but one COMMAND_RESPONSE whose content is USER_NOT_FOUND: followed
    by the target, and it goes to the socket the registry holds for the
    sender at that moment (a descriptor, which -1 is not); when the sender
    is not registered either, nothing is sent at all. *)
Theorem SendPrivate_target_absent (msg : Message) (w : World) :
  g_users w !! target_username msg = None ->
  let w' := snd (MessageRouter.SendPrivate msg w) in
  let notify :=
    mkMessage (code COMMAND_RESPONSE) (clock w (ticks w)) "Server" ""
              ("USER_NOT_FOUND:" ++ target_username msg)%string in
  (forall user sender_socket,
      g_users w !! sender_username msg = Some (user, sender_socket) ->
      sender_socket <> -1 ->
      sent w' = sent w ++ [(sender_socket, notify)])
  /\ (g_users w !! sender_username msg = None -> sent w' = sent w)
  /\ g_users w' = g_users w.
Proof.
  intros Htarget w' notify. subst w' notify.
  rewrite (SendPrivate_unknown_target_eq msg w Htarget). cbn [snd].
  destruct (g_users w !! sender_username msg) as [[user s] |]; cbn [snd].
  - destruct (Z.eqb_spec s (-1)) as [Hs | Hs].
    + split; [| split]; [| discriminate | reflexivity].
      intros user' s' Heq Hne. injection Heq as _ <-. contradiction.
    + split; [| split]; [| discriminate | reflexivity].
      intros user' s' Heq Hne. injection Heq as _ <-. reflexivity.
  - split; [| split]; [discriminate | reflexivity | reflexivity].
Qed.

Lemma SendPrivate_target_absent_witness :
  sent (snd (MessageRouter.SendPrivate
               (mkMessage (code PRIVATE_MESSAGE) 1700000000123 "alice" "carol" "hello")
               world_ab))
  = [(4, mkMessage (code COMMAND_RESPONSE) 1700000000000 "Server" ""
           "USER_NOT_FOUND:carol")].
Proof.
  refine (proj1 (SendPrivate_target_absent
            (mkMessage (code PRIVATE_MESSAGE) 1700000000123 "alice" "carol" "hello")
            world_ab _) (mkUser 4 "alice" true 1699999999000) 4 _ _).
  - vm_compute. reflexivity.
  - vm_compute. reflexivity.
  - discriminate.
Defined.

Lemma for_each_collect (l acc : list Socket) (w : World) :
  for_each l (fun s sockets => ret (sockets ++ [s])) acc w = (acc ++ l, w).
Proof.
  revert acc. induction l as [| s l IH]; intros acc; cbn.
  - now rewrite app_nil_r.
  - unfold bind, ret. cbn. rewrite IH. now rewrite <- app_assoc.
Qed.

Lemma CollectAllSockets_eq (w : World) :
  MessageRouter.CollectAllSockets w = (snapshot (g_users w), w).
Proof.
  unfold MessageRouter.CollectAllSockets, UserManager.ForEachUserSocket.
  now rewrite for_each_collect.
Qed.

Lemma for_each_send (l : list Socket) (msg : Message) (w : World) :
  for_each l (fun s _ => NetworkLayer.SendMessage s msg ;; ret tt) tt w
  = (tt, foldl (fun w s => add_sent s msg w) w l).
Proof.
  revert w. induction l as [| s l IH]; intros w; [reflexivity |].
  cbn [for_each foldl]. unfold bind at 1. unfold bind at 1.
  unfold NetworkLayer.SendMessage at 1. unfold ret at 1. apply IH.
Qed.

Lemma sent_foldl_add_sent (l : list Socket) (msg : Message) (w : World) :
  sent (foldl (fun w s => add_sent s msg w) w l)
  = sent w ++ ((fun s => (s, msg)) <$> l).
Proof.
  revert w. induction l as [| s l IH]; intros w; cbn.
  - now rewrite app_nil_r.
  - rewrite IH. cbn. now rewrite <- app_assoc.
Qed.

Lemma g_users_foldl_add_sent (l : list Socket) (msg : Message) (w : World) :
  g_users (foldl (fun w s => add_sent s msg w) w l) = g_users w.
Proof.
  revert w. induction l as [| s l IH]; intros w; cbn; [reflexivity |].
  now rewrite IH.
Qed.

Lemma BroadcastPublic_eq (msg : Message) (w : World) :
  MessageRouter.BroadcastPublic msg w
  = (tt, foldl (fun w s => add_sent s msg w) w (snapshot (g_users w))).
Proof.
  unfold MessageRouter.BroadcastPublic, bind.
  rewrite CollectAllSockets_eq. apply for_each_send.
Qed.

Lemma copies_fmap (l : list Socket) (sock : Socket) (msg : Message) :
  copies sock msg ((fun s => (s, msg)) <$> l)
  = length (filter (fun s => s = sock) l).
Proof.
  unfold copies. induction l as [| s l IH]; [reflexivity |].
  rewrite fmap_cons, !filter_cons.
  destruct (decide (s = sock)) as [-> | Hne].
  - rewrite decide_True by reflexivity. cbn. now rewrite IH.
  - rewrite decide_False by congruence. exact IH.
Qed.

Lemma filter_eq_absent (l : list Socket) (sock : Socket) :
  sock ∉ l -> filter (fun s => s = sock) l = [].
Proof.
  induction l as [| s l IH]; intros Hnot; [reflexivity |].
  apply not_elem_of_cons in Hnot as [Hne Hnot].
  rewrite filter_cons, decide_False by congruence. now apply IH.
Qed.

Lemma filter_eq_NoDup (l : list Socket) (sock : Socket) :
  NoDup l -> sock ∈ l -> length (filter (fun s => s = sock) l) = 1%nat.
Proof.
  induction 1 as [| s l Hnotin Hnd IH]; intros Hin.
  - now apply elem_of_nil in Hin.
  - rewrite filter_cons. destruct (decide (s = sock)) as [-> | Hne].
    + now rewrite filter_eq_absent.
    + apply elem_of_cons in Hin as [-> | Hin]; [congruence | now apply IH].
Qed.

(** C8: [BroadcastPublic] hands [msg] to [SendMessage] once for every
    entry of the registry as it is at the call, in one pass and whatever the
    outcome of each send ([dead] is not looked at, and nothing is returned):
    no registered connection is left out, a socket receives as many copies
    as there are entries that hold it, hence exactly one when the sockets of
    the registry are distinct, and a socket outside the registry receives
    none. *)
Theorem BroadcastPublic_one_copy_each (msg : Message) (w : World) :
  let w' := snd (MessageRouter.BroadcastPublic msg w) in
  let sockets := snapshot (g_users w) in
  newly_sent w w' = (fun s => (s, msg)) <$> sockets
  /\ sent w' = sent w ++ newly_sent w w'
  /\ length sockets = size (g_users w)
  /\ (forall name user s,
        g_users w !! name = Some (user, s) -> (s, msg) ∈ newly_sent w w')
  /\ (forall s,
        copies s msg (newly_sent w w')
        = length (filter (fun kv => snd (snd kv) = s) (map_to_list (g_users w))))
  /\ (NoDup sockets ->
      forall s, s ∈ sockets -> copies s msg (newly_sent w w') = 1%nat)
  /\ (forall s, s ∉ sockets -> copies s msg (newly_sent w w') = 0%nat)
  /\ g_users w' = g_users w.
Proof.
  intros w' sockets.
  assert (Hnew : newly_sent w w' = (fun s => (s, msg)) <$> sockets).
  { subst w'. unfold newly_sent. rewrite BroadcastPublic_eq. cbn [snd].
    rewrite sent_foldl_add_sent. apply drop_app_length. }
  assert (Hsent : sent w' = sent w ++ newly_sent w w').
  { rewrite Hnew. subst w'. rewrite BroadcastPublic_eq. cbn [snd].
    apply sent_foldl_add_sent. }
  rewrite Hnew.
  split; [reflexivity |]. split; [now rewrite <- Hnew |].
  split; [subst sockets; unfold snapshot;
          now rewrite length_fmap, length_map_to_list |].
  split.
  { intros name user s Hlook. apply list_elem_of_fmap. exists s.
    split; [reflexivity |]. subst sockets. unfold snapshot.
    apply list_elem_of_fmap. exists (name, (user, s)).
    split; [reflexivity | now apply elem_of_map_to_list]. }
  split.
  { intros s. rewrite copies_fmap. subst sockets. unfold snapshot.
    induction (map_to_list (g_users w)) as [| kv l IH]; [reflexivity |].
    rewrite fmap_cons, !filter_cons.
    destruct (decide (snd (snd kv) = s)); cbn; now rewrite IH. }
  split.
  { intros Hnd s Hin. rewrite copies_fmap. now apply filter_eq_NoDup. }
  split.
  { intros s Hnot. rewrite copies_fmap. now rewrite filter_eq_absent. }
  subst w'. rewrite BroadcastPublic_eq. apply g_users_foldl_add_sent.
Qed.

Lemma BroadcastPublic_one_copy_each_witness :
  copies 5 (mkMessage (code PUBLIC_MESSAGE) 1700000000123 "alice" "" "hi")
    (newly_sent world_ab
       (snd (MessageRouter.BroadcastPublic
               (mkMessage (code PUBLIC_MESSAGE) 1700000000123 "alice" "" "hi")
               world_ab)))
  = 1%nat.
Proof.
  assert (Hs : snapshot (g_users world_ab) = [4; 5])
    by (vm_compute; reflexivity).
  pose proof (BroadcastPublic_one_copy_each
                (mkMessage (code PUBLIC_MESSAGE) 1700000000123 "alice" "" "hi")
                world_ab) as H.
  cbv zeta in H. destruct H as (_ & _ & _ & _ & _ & H & _).
  apply H; rewrite Hs.
  - apply NoDup_cons. split.
    + apply not_elem_of_cons. split; [discriminate | apply not_elem_of_nil].
    + apply NoDup_singleton.
  - apply elem_of_cons. right. apply elem_of_cons. now left.
Defined.

(** ** The command processor *)

Lemma fst_bind_const {A B} (m : M A) (k : A -> M B) (b : B) (w : World) :
  (forall a w', fst (k a w') = b) -> fst (bind m k w) = b.
Proof. intros Hk. unfold bind. destruct (m w) as [a w']. apply Hk. Qed.

Ltac verdict :=
  repeat (apply fst_bind_const; intros ? ?); reflexivity.

(** C5: [Process] answers DISCONNECT exactly for a COMMAND_RESPONSE whose
    content is BYE, and then it has sent one COMMAND_RESPONSE with content
    GOODBYE to the requester; a message that is neither a USER_LIST_REQUEST,
    nor a PRIVATE_MESSAGE, nor a PUBLIC_MESSAGE, nor that BYE is answered
    with one COMMAND_RESPONSE with content UNKNOWN_COMMAND, and the verdict
    is CONTINUE. *)
Theorem Process_verdict (msg : Message) (client_socket : Socket) (w : World) :
  let bye := type msg = code COMMAND_RESPONSE /\ content msg = "BYE"%string in
  let reply c :=
    (client_socket,
     mkMessage (code COMMAND_RESPONSE) (clock w (ticks w)) "Server" "" c) in
  (fst (CommandProcessor.Process msg client_socket w) = "DISCONNECT"%string
   <-> bye)
  /\ (bye ->
      sent (snd (CommandProcessor.Process msg client_socket w))
      = sent w ++ [reply "GOODBYE"%string])
  /\ (type msg <> code USER_LIST_REQUEST ->
      type msg <> code PRIVATE_MESSAGE ->
      type msg <> code PUBLIC_MESSAGE ->
      ~ bye ->
      CommandProcessor.Process msg client_socket w
      = ("CONTINUE"%string,
         add_sent client_socket (snd (reply "UNKNOWN_COMMAND"%string)) (tick w))
      /\ sent (snd (CommandProcessor.Process msg client_socket w))
         = sent w ++ [reply "UNKNOWN_COMMAND"%string]).
Proof.
  intros bye reply. subst bye reply. unfold CommandProcessor.Process.
  destruct (Z.eqb_spec (type msg) (code USER_LIST_REQUEST)) as [H5 | H5].
  { split; [| split].
    - split; [| intros [Ht _]; rewrite H5 in Ht; discriminate].
      intros Hv. exfalso. revert Hv.
      match goal with |- ?x = _ -> _ =>
        assert (Hc : x = "CONTINUE"%string) by verdict; rewrite Hc end.
      discriminate.
    - intros [Ht _]. rewrite H5 in Ht. discriminate.
    - intros Hn. contradiction. }
  destruct (Z.eqb_spec (type msg) (code PRIVATE_MESSAGE)) as [H1 | H1].
  { split; [| split].
    - split; [| intros [Ht _]; rewrite H1 in Ht; discriminate].
      intros Hv. exfalso. revert Hv.
      match goal with |- ?x = _ -> _ =>
        assert (Hc : x = "CONTINUE"%string) by verdict; rewrite Hc end.
      discriminate.
    - intros [Ht _]. rewrite H1 in Ht. discriminate.
    - intros _ Hn. contradiction. }
  destruct (Z.eqb_spec (type msg) (code PUBLIC_MESSAGE)) as [H0 | H0].
  { split; [| split].
    - split; [| intros [Ht _]; rewrite H0 in Ht; discriminate].
      intros Hv. exfalso. revert Hv.
      match goal with |- ?x = _ -> _ =>
        assert (Hc : x = "CONTINUE"%string) by verdict; rewrite Hc end.
      discriminate.
    - intros [Ht _]. rewrite H0 in Ht. discriminate.
    - intros _ _ Hn. contradiction. }
  destruct (Z.eqb_spec (type msg) (code COMMAND_RESPONSE)) as [H7 | H7];
    destruct (String.eqb_spec (content msg) "BYE") as [Hb | Hb];
    cbn [andb].
  - split; [| split].
    + split; [intros _; split; assumption | reflexivity].
    + intros _. reflexivity.
    + intros _ _ _ Hn. exfalso. apply Hn. split; assumption.
  - split; [| split].
    + split; [discriminate | intros [_ Hc]; contradiction].
    + intros [_ Hc]. contradiction.
    + intros _ _ _ _. split; reflexivity.
  - split; [| split].
    + split; [discriminate | intros [Ht _]; contradiction].
    + intros [Ht _]. contradiction.
    + intros _ _ _ _. split; reflexivity.
  - split; [| split].
    + split; [discriminate | intros [Ht _]; contradiction].
    + intros [Ht _]. contradiction.
    + intros _ _ _ _. split; reflexivity.
Qed.

Lemma Process_verdict_witness :
  sent (snd (CommandProcessor.Process
               (mkMessage (code COMMAND_RESPONSE) 0 "alice" "" "BYE") 4 world_ab))
  = [(4, mkMessage (code COMMAND_RESPONSE) 1700000000000 "Server" "" "GOODBYE")]
  /\ sent (snd (CommandProcessor.Process
                  (mkMessage (code USER_JOINED) 0 "alice" "" "x") 4 world_ab))
     = [(4, mkMessage (code COMMAND_RESPONSE) 1700000000000 "Server" ""
              "UNKNOWN_COMMAND")].
Proof.
  split.
  - apply (proj1 (proj2 (Process_verdict
             (mkMessage (code COMMAND_RESPONSE) 0 "alice" "" "BYE") 4 world_ab))).
    split; reflexivity.
  - apply (proj2 (proj2 (Process_verdict
             (mkMessage (code USER_JOINED) 0 "alice" "" "x") 4 world_ab)));
      cbn; try discriminate.
    intros [Ht _]; discriminate.
Defined.

(** ** Authentication *)

(** One turn of the loop of [Authenticate], effect by effect. *)
Lemma Authenticate_loop_S (n : nat) (sock : Socket) (w : World) :
  UserManager.Authenticate_loop (S n) sock w
  = let w1 := add_sent sock
                (server_command "ENTER_USERNAME" (clock w (ticks w))) (tick w) in
    match NetworkLayer.ReceiveMessage_stream (default [] (inbound w !! sock)) with
    | (None, rest) => (None, set_inbound sock rest w1)
    | (Some reply, rest) =>
        let w2 := set_inbound sock rest w1 in
        if bool_decide (g_users w !! content reply = None) then
          let user := mkUser sock (content reply) true (clock w (S (ticks w))) in
          (Some user,
           add_sent sock
             (server_command "USERNAME_ACCEPTED" (clock w (S (S (ticks w)))))
             (tick (set_users (insert (content reply) (user, sock)) (tick w2))))
        else
          UserManager.Authenticate_loop n sock
            (add_sent sock
               (server_command "USERNAME_TAKEN" (clock w (S (ticks w))))
               (tick w2))
    end.
Proof.
  cbn [UserManager.Authenticate_loop].
  unfold bind at 1. unfold UserManager.MakeServerCommand at 1.
  unfold bind at 1. unfold NowEpochMs at 1. unfold ret at 1.
  unfold bind at 1. unfold NetworkLayer.SendMessage at 1.
  unfold bind at 1. unfold NetworkLayer.ReceiveMessage at 1.
  cbn [inbound add_sent tick].
  destruct (NetworkLayer.ReceiveMessage_stream (default [] (inbound w !! sock)))
    as [[reply |] rest]; [| reflexivity].
  unfold bind at 1. unfold UserManager.CheckUniqueness at 1.
  cbn [g_users set_inbound add_sent tick].
  destruct (bool_decide (g_users w !! content reply = None)); reflexivity.
Qed.

Lemma prompts_app (l1 l2 : list (Socket * Message)) :
  prompts (l1 ++ l2) = (prompts l1 + prompts l2)%nat.
Proof. unfold prompts. now rewrite filter_app, length_app. Qed.

(** Whatever arrives, [Authenticate_loop n] prompts at most [n] times, only
    adds to what was sent, and leaves the registry as it was unless it
    returns a user. *)
Lemma Authenticate_loop_prompts (n : nat) (sock : Socket) (w : World) :
  exists extra,
    sent (snd (UserManager.Authenticate_loop n sock w)) = sent w ++ extra
    /\ (prompts extra <= n)%nat
    /\ (fst (UserManager.Authenticate_loop n sock w) = None ->
        g_users (snd (UserManager.Authenticate_loop n sock w)) = g_users w).
Proof.
  revert w. induction n as [| n IH]; intros w.
  - exists [(sock, server_command "AUTH_FAILED" (clock w (ticks w)))].
    repeat split. vm_compute. lia.
  - rewrite Authenticate_loop_S. cbv zeta.
    destruct (NetworkLayer.ReceiveMessage_stream (default [] (inbound w !! sock)))
      as [[reply |] rest].
    + destruct (bool_decide (g_users w !! content reply = None)).
      * eexists [_; _]. cbn [fst snd sent add_sent tick set_users set_inbound].
        split; [now rewrite <- app_assoc |].
        split; [vm_compute; lia | discriminate].
      * match goal with |- context [UserManager.Authenticate_loop n sock ?w2] =>
          destruct (IH w2) as (extra & Hsent & Hp & Hreg) end.
        eexists (_ :: _ :: extra).
        split; [| split].
        -- rewrite Hsent. cbn [sent add_sent tick set_users set_inbound].
           rewrite <- !app_assoc. reflexivity.
        -- change (?a :: ?b :: extra) with ([a; b] ++ extra).
           rewrite prompts_app.
           match goal with |- (prompts ?l + _ <= _)%nat =>
             assert (Hl : prompts l = 1%nat) by (vm_compute; reflexivity);
             rewrite Hl end.
           lia.
        -- intros Hnone. now rewrite (Hreg Hnone).
    + eexists [_]. cbn [fst snd sent add_sent tick set_users set_inbound g_users].
      split; [reflexivity |]. split; [vm_compute; lia | reflexivity].
Qed.

(** C7: [Authenticate] prompts at most three times whatever arrives.  When
    the three names offered are all registered, each is answered with
    USERNAME_TAKEN, then AUTH_FAILED is sent and no user is returned;
    [ServeClient] then sends nothing more (no join message), writes nothing
    to the log, leaves the registry as it was and closes the socket. *)
Theorem Authenticate_exhausted
    (sock : Socket) (w : World) (r1 r2 r3 : Message)
    (st1 st2 st3 : list (list ascii)) :
  NetworkLayer.ReceiveMessage_stream (default [] (inbound w !! sock))
    = (Some r1, st1) ->
  NetworkLayer.ReceiveMessage_stream st1 = (Some r2, st2) ->
  NetworkLayer.ReceiveMessage_stream st2 = (Some r3, st3) ->
  g_users w !! content r1 <> None ->
  g_users w !! content r2 <> None ->
  g_users w !! content r3 <> None ->
  0 <= sock ->
  let says c k := (sock, server_command c (clock w (ticks w + k)%nat)) in
  let w' := snd (UserManager.Authenticate sock w) in
  let w'' := snd (ClientHandler.ServeClient sock w) in
  fst (UserManager.Authenticate sock w) = None
  /\ sent w'
     = sent w ++ [says "ENTER_USERNAME"%string 0%nat; says "USERNAME_TAKEN"%string 1%nat;
                  says "ENTER_USERNAME"%string 2%nat; says "USERNAME_TAKEN"%string 3%nat;
                  says "ENTER_USERNAME"%string 4%nat; says "USERNAME_TAKEN"%string 5%nat;
                  says "AUTH_FAILED"%string 6%nat]
  /\ g_users w' = g_users w
  /\ sent w'' = sent w'
  /\ g_users w'' = g_users w
  /\ files w'' = files w
  /\ closed w'' = closed w ++ [sock]
  /\ (forall w0 : World,
        (prompts (newly_sent w0 (snd (UserManager.Authenticate sock w0))) <= 3)%nat).
Proof.
  intros H1 H2 H3 Hr1 Hr2 Hr3 Hsock says w' w''.
  assert (Hauth : UserManager.Authenticate sock w
    = (None,
       add_sent sock (server_command "AUTH_FAILED" (clock w (ticks w + 6)%nat))
       (tick
       (add_sent sock (server_command "USERNAME_TAKEN" (clock w (ticks w + 5)%nat))
       (tick (set_inbound sock st3
       (add_sent sock (server_command "ENTER_USERNAME" (clock w (ticks w + 4)%nat))
       (tick
       (add_sent sock (server_command "USERNAME_TAKEN" (clock w (ticks w + 3)%nat))
       (tick (set_inbound sock st2
       (add_sent sock (server_command "ENTER_USERNAME" (clock w (ticks w + 2)%nat))
       (tick
       (add_sent sock (server_command "USERNAME_TAKEN" (clock w (ticks w + 1)%nat))
       (tick (set_inbound sock st1
       (add_sent sock (server_command "ENTER_USERNAME" (clock w (ticks w + 0)%nat))
       (tick w)))))))))))))))))).
  { unfold UserManager.Authenticate, kAuthMaxRetries.
    rewrite Authenticate_loop_S. cbv zeta. rewrite H1.
    rewrite bool_decide_eq_false_2 by exact Hr1.
    rewrite Authenticate_loop_S. cbv zeta.
    cbn [inbound g_users clock ticks add_sent tick set_inbound].
    rewrite lookup_insert_eq. change (default [] (Some st1)) with st1.
    rewrite H2.
    rewrite bool_decide_eq_false_2 by exact Hr2.
    rewrite Authenticate_loop_S. cbv zeta.
    cbn [inbound g_users clock ticks add_sent tick set_inbound].
    rewrite lookup_insert_eq. change (default [] (Some st2)) with st2.
    rewrite H3.
    rewrite bool_decide_eq_false_2 by exact Hr3.
    cbn [UserManager.Authenticate_loop].
    unfold bind, UserManager.MakeServerCommand, NowEpochMs, ret,
      NetworkLayer.SendMessage, bind.
    cbn [inbound g_users clock ticks add_sent tick set_inbound fst snd].
    replace (ticks w + 0)%nat with (ticks w) by lia.
    replace (ticks w + 1)%nat with (S (ticks w)) by lia.
    replace (ticks w + 2)%nat with (S (S (ticks w))) by lia.
    replace (ticks w + 3)%nat with (S (S (S (ticks w)))) by lia.
    replace (ticks w + 4)%nat with (S (S (S (S (ticks w))))) by lia.
    replace (ticks w + 5)%nat with (S (S (S (S (S (ticks w)))))) by lia.
    replace (ticks w + 6)%nat with (S (S (S (S (S (S (ticks w))))))) by lia.
    reflexivity. }
  assert (Hserve : ClientHandler.ServeClient sock w
    = (tt, add_closed sock (snd (UserManager.Authenticate sock w)))).
  { unfold ClientHandler.ServeClient, bind. rewrite Hauth. cbn [snd].
    unfold NetworkLayer.Close. destruct (Z.leb_spec 0 sock); [reflexivity | lia]. }
  subst w' w''. rewrite Hserve. cbn [snd]. rewrite Hauth.
  cbn [fst snd sent g_users files closed add_sent tick set_inbound add_closed].
  subst says. cbv beta.
  repeat split.
  - rewrite <- !app_assoc. reflexivity.
  - intros w0. unfold UserManager.Authenticate, newly_sent.
    destruct (Authenticate_loop_prompts kAuthMaxRetries sock w0)
      as (extra & Hsent & Hp & _).
    rewrite Hsent, drop_app_length. exact Hp.
Qed.

Lemma Authenticate_exhausted_witness :
  fst (UserManager.Authenticate 6 world_three_taken) = None
  /\ closed (snd (ClientHandler.ServeClient 6 world_three_taken)) = [6].
Proof.
  pose proof (Authenticate_exhausted 6 world_three_taken
    (mkMessage (code COMMAND_RESPONSE) 1700000000050 "" "" "alice")
    (mkMessage (code COMMAND_RESPONSE) 1700000000050 "" "" "bob")
    (mkMessage (code COMMAND_RESPONSE) 1700000000050 "" "" "alice")
    [reply_frame "bob"; reply_frame "alice"] [reply_frame "alice"] []) as H.
  cbv zeta in H.
  destruct H as (Hnone & _ & _ & _ & _ & _ & Hclosed & _).
  - vm_compute. reflexivity.
  - vm_compute. reflexivity.
  - vm_compute. reflexivity.
  - vm_compute. discriminate.
  - vm_compute. discriminate.
  - vm_compute. discriminate.
  - lia.
  - split; [exact Hnone | exact Hclosed].
Defined.

(** ** The session *)

(** One turn of the receive loop, for a user who is connected. *)
Lemma ServeLoop_turn (fuel : nat) (user : User) (client_socket : Socket)
    (w : World) :
  connected user = true ->
  ClientHandler.ServeLoop (S fuel) user client_socket w
  = match NetworkLayer.ReceiveMessage client_socket w with
    | (None, w1) => (tt, w1)
    | (Some incoming, w1) =>
        let stamped :=
          mkMessage (type incoming)
                    (if timestamp incoming =? 0 then clock w1 (ticks w1)
                     else timestamp incoming)
                    (username user) (target_username incoming)
                    (content incoming) in
        let w2 := if timestamp incoming =? 0 then tick w1 else w1 in
        let (result, w3) := CommandProcessor.Process stamped client_socket w2 in
        if String.eqb result "DISCONNECT" then (tt, w3)
        else ClientHandler.ServeLoop fuel user client_socket w3
    end.
Proof.
  intros Hconn. cbn [ClientHandler.ServeLoop]. rewrite Hconn.
  unfold bind at 1.
  destruct (NetworkLayer.ReceiveMessage client_socket w) as [[incoming |] w1];
    [| reflexivity].
  cbn [type timestamp sender_username target_username content]. cbv zeta.
  unfold bind at 1.
  destruct (timestamp incoming =? 0).
  - unfold bind at 1. unfold NowEpochMs at 1. unfold ret at 1.
    unfold bind at 1.
    destruct (CommandProcessor.Process _ client_socket (tick w1))
      as [result w3].
    destruct (String.eqb result "DISCONNECT"); reflexivity.
  - unfold ret at 1. unfold bind at 1.
    destruct (CommandProcessor.Process _ client_socket w1) as [result w3].
    destruct (String.eqb result "DISCONNECT"); reflexivity.
Qed.

(** C9: in the receive loop, the message handed to [Process] is the one
    received with its sender replaced by the name of the session's user and,
    when and only when its timestamp is 0, its timestamp replaced by the
    reading of the clock; type, target and content are those received. *)
Theorem ServeLoop_stamps_sender_and_time
    (fuel : nat) (user : User) (client_socket : Socket)
    (w w1 : World) (incoming : Message) :
  connected user = true ->
  NetworkLayer.ReceiveMessage client_socket w = (Some incoming, w1) ->
  let stamped :=
    mkMessage (type incoming)
              (if timestamp incoming =? 0 then clock w1 (ticks w1)
               else timestamp incoming)
              (username user) (target_username incoming) (content incoming) in
  let w2 := if timestamp incoming =? 0 then tick w1 else w1 in
  ClientHandler.ServeLoop (S fuel) user client_socket w
  = (let (result, w3) := CommandProcessor.Process stamped client_socket w2 in
     if String.eqb result "DISCONNECT" then (tt, w3)
     else ClientHandler.ServeLoop fuel user client_socket w3)
  /\ sender_username stamped = username user
  /\ (timestamp incoming = 0 -> timestamp stamped = clock w1 (ticks w1))
  /\ (timestamp incoming <> 0 -> timestamp stamped = timestamp incoming)
  /\ type stamped = type incoming
  /\ target_username stamped = target_username incoming
  /\ content stamped = content incoming.
Proof.
  intros Hconn Hrecv stamped w2. subst stamped w2.
  split.
  - rewrite (ServeLoop_turn fuel user client_socket w Hconn), Hrecv.
    reflexivity.
  - cbn [type timestamp sender_username target_username content].
    repeat split.
    + intros ->. reflexivity.
    + intros Hnz. destruct (Z.eqb_spec (timestamp incoming) 0);
        [contradiction | reflexivity].
Qed.

Lemma ServeLoop_stamps_sender_and_time_witness :
  ClientHandler.ServeLoop 1 (mkUser 4 "alice" true 1699999999000) 4 world_hi
  = (let (result, w3) :=
       CommandProcessor.Process
         (mkMessage (code PUBLIC_MESSAGE) 1700000000000 "alice" "" "hi") 4
         (tick (set_inbound 4 [] world_hi)) in
     if String.eqb result "DISCONNECT" then (tt, w3)
     else ClientHandler.ServeLoop 0 (mkUser 4 "alice" true 1699999999000) 4 w3).
Proof.
  assert (Hrecv : NetworkLayer.ReceiveMessage 4 world_hi
                  = (Some (mkMessage (code PUBLIC_MESSAGE) 0 "" "" "hi"),
                     set_inbound 4 [] world_hi)).
  { unfold NetworkLayer.ReceiveMessage.
    assert (Hs : NetworkLayer.ReceiveMessage_stream
                   (default [] (inbound world_hi !! 4))
                 = (Some (mkMessage (code PUBLIC_MESSAGE) 0 "" "" "hi"), []))
      by (vm_compute; reflexivity).
    rewrite Hs. reflexivity. }
  pose proof (ServeLoop_stamps_sender_and_time 0
                (mkUser 4 "alice" true 1699999999000) 4 world_hi
                (set_inbound 4 [] world_hi)
                (mkMessage (code PUBLIC_MESSAGE) 0 "" "" "hi")
                eq_refl Hrecv) as H.
  cbv zeta in H. destruct H as [H _].
  cbn [timestamp type target_username content username Z.eqb] in H.
  exact H.
Defined.

(** *** The fuel of the receive loop is never used up *)

Lemma recv_all_consumes (stream : list (list ascii)) (len : nat)
    (bs : list ascii) (rest : list (list ascii)) :
  NetworkLayer.recv_all stream len = (Some bs, rest) ->
  length (concat stream) = (len + length (concat rest))%nat.
Proof.
  revert len bs rest. induction stream as [| chunk stream IH];
    intros len bs rest Hrecv.
  - destruct len; cbn in Hrecv; [| discriminate].
    injection Hrecv as _ <-. reflexivity.
  - destruct len as [| len']; [cbn in Hrecv; injection Hrecv as _ <-; reflexivity |].
    cbn [NetworkLayer.recv_all] in Hrecv.
    destruct (Nat.eqb_spec (length chunk) 0); [discriminate |].
    cbn [concat]. rewrite length_app.
    destruct (Nat.leb_spec (length chunk) (S len')) as [Hle | Hgt].
    + destruct (NetworkLayer.recv_all stream (S len' - length chunk))
        as [[bs' |] rest'] eqn:Hrec; [| discriminate].
      injection Hrecv as _ <-. rewrite (IH _ _ _ Hrec). lia.
    + injection Hrecv as _ <-. cbn [concat].
      rewrite length_app, length_drop. lia.
Qed.

Lemma ReceiveMessage_stream_consumes (stream rest : list (list ascii))
    (m : Message) :
  NetworkLayer.ReceiveMessage_stream stream = (Some m, rest) ->
  (length (concat rest) < length (concat stream))%nat.
Proof.
  unfold NetworkLayer.ReceiveMessage_stream. intros Hrecv.
  destruct (NetworkLayer.recv_all stream 4) as [[net_len |] rest1] eqn:H4;
    [| discriminate].
  destruct (to_i32 (NetworkLayer.be_value net_len) <=? 0); [discriminate |].
  destruct (NetworkLayer.recv_all rest1 _) as [[buf |] rest2] eqn:Hn;
    [| discriminate].
  injection Hrecv as _ <-.
  apply recv_all_consumes in H4. apply recv_all_consumes in Hn. lia.
Qed.

Lemma inbound_foldl_add_sent (l : list Socket) (msg : Message) (w : World) :
  inbound (foldl (fun w s => add_sent s msg w) w l) = inbound w.
Proof.
  revert w. induction l as [| s l IH]; intros w; cbn; [reflexivity |].
  now rewrite IH.
Qed.

(** [Process] receives nothing: the streams are as they were. *)
Lemma inbound_Process (msg : Message) (client_socket : Socket) (w : World) :
  inbound (snd (CommandProcessor.Process msg client_socket w)) = inbound w.
Proof.
  unfold CommandProcessor.Process.
  destruct (type msg =? code USER_LIST_REQUEST); [reflexivity |].
  destruct (type msg =? code PRIVATE_MESSAGE).
  { unfold bind. 
    assert (Hp : inbound (snd (MessageRouter.SendPrivate msg w)) = inbound w).
    { unfold MessageRouter.SendPrivate, bind, UserManager.GetSocket, NowEpochMs.
      cbv beta iota.
      destruct (negb _); [reflexivity |]. cbn [g_users tick].
      destruct (negb _); reflexivity. }
    destruct (MessageRouter.SendPrivate msg w) as [[] w1]. cbn [snd] in *.
    exact Hp. }
  destruct (type msg =? code PUBLIC_MESSAGE).
  { unfold bind. rewrite BroadcastPublic_eq. cbn [snd].
    unfold LoggingService.LogFromMessage, LoggingService.Write, File.AppendLine,
      ret. cbn [snd inbound set_files].
    apply inbound_foldl_add_sent. }
  destruct (_ && _); reflexivity.
Qed.

(** Every turn that goes on has taken a frame out of the stream, so the
    loop stops before a fuel larger than the number of bytes to come is
    used up: more fuel changes nothing. *)
Lemma ServeLoop_fuel_enough (fuel fuel' : nat) (user : User)
    (client_socket : Socket) (w : World) :
  (ClientHandler.pending client_socket w < fuel)%nat ->
  (ClientHandler.pending client_socket w < fuel')%nat ->
  ClientHandler.ServeLoop fuel user client_socket w
  = ClientHandler.ServeLoop fuel' user client_socket w.
Proof.
  revert fuel' w. induction fuel as [| fuel IH]; intros fuel' w Hf Hf'; [lia |].
  destruct fuel' as [| fuel']; [lia |].
  destruct (connected user) eqn:Hconn;
    [| cbn [ClientHandler.ServeLoop]; now rewrite Hconn].
  rewrite !ServeLoop_turn by exact Hconn.
  unfold NetworkLayer.ReceiveMessage.
  destruct (NetworkLayer.ReceiveMessage_stream
              (default [] (inbound w !! client_socket)))
    as [[incoming |] rest] eqn:Hrecv; [| reflexivity].
  apply ReceiveMessage_stream_consumes in Hrecv. cbv zeta.
  match goal with |- context [CommandProcessor.Process ?m client_socket ?w2] =>
    pose proof (inbound_Process m client_socket w2) as Hin;
    destruct (CommandProcessor.Process m client_socket w2) as [result w3] end.
  destruct (String.eqb result "DISCONNECT"); [reflexivity |].
  cbn [snd] in Hin.
  assert (Hpend : ClientHandler.pending client_socket w3
                  = length (concat rest)).
  { unfold ClientHandler.pending. rewrite Hin.
    destruct (timestamp incoming =? 0); cbn [inbound tick set_inbound];
      now rewrite lookup_insert_eq. }
  unfold ClientHandler.pending in Hf, Hf'.
  apply IH; rewrite Hpend; lia.
Qed.

(** ** Two sessions offering the same name *)

(** One attempt of [Authenticate] is a prompt, a receive and two steps of
    [auth_step]: the check, and what follows it. *)
Lemma Authenticate_loop_as_steps (n : nat) (sock : Socket) (w : World) :
  UserManager.Authenticate_loop (S n) sock w
  = (let* prompt := UserManager.MakeServerCommand "ENTER_USERNAME" in
     NetworkLayer.SendMessage sock prompt ;;
     let* replyOpt := NetworkLayer.ReceiveMessage sock in
     match replyOpt with
     | None => ret None
     | Some reply =>
         let* pt := AuthRace.auth_step sock (AuthRace.BeforeCheck (content reply)) in
         let* pt' := AuthRace.auth_step sock pt in
         match pt' with
         | AuthRace.Returned user => ret (Some user)
         | _ => UserManager.Authenticate_loop n sock
         end
     end) w.
Proof.
  rewrite Authenticate_loop_S. cbv zeta.
  cbv beta iota delta [bind ret UserManager.MakeServerCommand NowEpochMs
                       NetworkLayer.SendMessage NetworkLayer.ReceiveMessage].
  cbn [inbound add_sent tick].
  destruct (NetworkLayer.ReceiveMessage_stream (default [] (inbound w !! sock)))
    as [[reply |] rest]; [| reflexivity].
  cbv beta iota delta [AuthRace.auth_step bind UserManager.CheckUniqueness].
  cbn [g_users set_inbound add_sent tick].
  destruct (bool_decide (g_users w !! content reply = None));
    cbv beta iota delta [AuthRace.auth_step bind ret UserManager.AddUser
                         UserManager.MakeServerCommand NowEpochMs
                         NetworkLayer.SendMessage];
    reflexivity.
Qed.

(** When two sessions have both checked a name that is free before either
    has added it, both add it and both are accepted. *)
Lemma check_check_add_add (w : World) (name : string) (s1 s2 : Socket) :
  g_users w !! name = None ->
  let result :=
    AuthRace.run [0; 1; 0; 1]%nat
      [(s1, AuthRace.BeforeCheck name); (s2, AuthRace.BeforeCheck name)] w in
  let u1 := mkUser s1 name true (clock w (ticks w)) in
  let u2 := mkUser s2 name true (clock w (S (ticks w))) in
  fst result = [(s1, AuthRace.Returned u1); (s2, AuthRace.Returned u2)]
  /\ sent (snd result)
     = sent w ++ [(s1, server_command "USERNAME_ACCEPTED" (clock w (2 + ticks w)%nat));
                  (s2, server_command "USERNAME_ACCEPTED" (clock w (3 + ticks w)%nat))]
  /\ g_users (snd result) = <[name := (u2, s2)]> (g_users w).
Proof.
  intros Hfree result u1 u2. subst result u1 u2.
  assert (Hfree' : g_users (tick w) !! name = None) by exact Hfree.
  cbn [AuthRace.run lookup list_lookup].
  cbv beta iota delta [AuthRace.auth_step bind ret
                       UserManager.CheckUniqueness NowEpochMs].
  rewrite (bool_decide_eq_true_2 _ Hfree).
  cbn [AuthRace.run lookup list_lookup insert list_insert].
  cbv beta iota delta [AuthRace.auth_step bind ret
                       UserManager.CheckUniqueness NowEpochMs].
  rewrite (bool_decide_eq_true_2 _ Hfree').
  cbn [AuthRace.run lookup list_lookup insert list_insert].
  cbv beta iota delta [AuthRace.auth_step].
  cbn [AuthRace.run lookup list_lookup insert list_insert].
  cbv beta iota delta [AuthRace.auth_step].
  cbv beta iota delta [UserManager.AddUser UserManager.MakeServerCommand
                       NowEpochMs NetworkLayer.SendMessage bind ret].
  cbn [fst snd sent g_users clock ticks tick set_users add_sent username].
  split; [reflexivity |]. split.
  - rewrite <- app_assoc. reflexivity.
  - apply insert_insert_eq.
Qed.

(** Had the first session been through before the second started, the
    second would have been turned down. *)
Example check_add_check_add :
  let result := AuthRace.run [0; 0; 1; 1]%nat two_alices world0 in
  AuthRace.accepted <$> fst result = [true; false]
  /\ sent (snd result)
     = [(4, server_command "USERNAME_ACCEPTED" 1700000000001);
        (5, server_command "USERNAME_TAKEN" 1700000000002)].
Proof. cbv zeta. split; vm_compute; reflexivity. Qed.

(** C1, on the code: two sessions that both offer alice, scheduled check,
    check, add, add, are both accepted: each is sent USERNAME_ACCEPTED and
    returns a user named alice.  The registry holds one entry for alice, the
    one written last, so the session on socket 4 is active without an
    entry. *)
Theorem Authenticate_race_both_accepted :
  let result := AuthRace.run [0; 1; 0; 1]%nat two_alices world0 in
  forallb AuthRace.accepted (fst result) = true
  /\ sent (snd result)
     = [(4, server_command "USERNAME_ACCEPTED" 1700000000002);
        (5, server_command "USERNAME_ACCEPTED" 1700000000003)]
  /\ map_to_list (g_users (snd result))
     = [("alice"%string, (mkUser 5 "alice" true 1700000000001, 5))].
Proof.
  pose proof (check_check_add_add world0 "alice" 4 5 eq_refl) as H.
  cbv zeta in H. destruct H as (Hfst & Hsent & Hreg).
  cbv zeta. unfold two_alices. rewrite Hfst, Hsent, Hreg.
  split; [reflexivity |]. split; [reflexivity |].
  vm_compute. reflexivity.
Qed.

(** ** The client *)

Lemma find_absent (c : ascii) (s : string) :
  ~ In c (list_ascii_of_string s) -> ClientCLI.find c s = None.
Proof.
  induction s as [| c' s IH]; intros Hnot; [reflexivity |].
  cbn in *. destruct (Ascii.eqb_spec c' c) as [-> | Hne].
  - exfalso. apply Hnot. now left.
  - rewrite IH; [reflexivity |]. intros Hin. apply Hnot. now right.
Qed.

(** C10: a line that starts with '@' and has no space in it makes the
    input loop send nothing: the loop goes on with the next line, and all
    that has changed is that the clock was read. *)
Theorem InputLoop_at_without_space
    (line : string) (lines : list string) (sock : Socket) (w : World) :
  ClientCLI.starts_with_at line = true ->
  ~ In " "%char (list_ascii_of_string line) ->
  ClientCLI.InputLoop_lines (line :: lines) sock w
  = ClientCLI.InputLoop_lines lines sock (tick w)
  /\ sent (tick w) = sent w.
Proof.
  intros Hat Hspace. split; [| reflexivity].
  cbn [ClientCLI.InputLoop_lines].
  destruct line as [| c line]; [discriminate |].
  cbn [ClientCLI.starts_with_at] in Hat.
  apply Ascii.eqb_eq in Hat. subst c.
  change (String.eqb (String "@" line) "") with false.
  change (String.eqb (String "@" line) "/bye") with false.
  change (String.eqb (String "@" line) "/list") with false.
  cbv iota. unfold bind at 1. unfold NowEpochMs at 1.
  cbn [ClientCLI.starts_with_at]. rewrite Ascii.eqb_refl.
  now rewrite (find_absent _ _ Hspace).
Qed.

Lemma InputLoop_at_without_space_witness :
  ClientCLI.InputLoop_lines ["@carol"%string] 3 world0
  = ClientCLI.InputLoop_lines [] 3 (tick world0)
  /\ sent (tick world0) = sent world0.
Proof.
  apply InputLoop_at_without_space.
  - reflexivity.
  - cbn. intros H. repeat (destruct H as [H | H]; [discriminate |]). exact H.
Defined.

(** * Further properties *)

(** ** The codec, read the other way *)

Lemma char_of_uchar_mod (x : Z) (c : ascii) :
  x mod 256 = uchar c -> char_of x = c.
Proof.
  intros Hx. unfold char_of. change 255 with (Z.ones 8).
  rewrite Z.land_ones by lia. change (2 ^ 8) with 256. rewrite Hx.
  unfold uchar. rewrite N2Z.id. apply ascii_N_embedding.
Qed.

Lemma to_u32_to_i32 (u : Z) : 0 <= u < 2 ^ 32 -> to_u32 (to_i32 u) = u.
Proof.
  unfold to_u32, to_i32. intros Hu.
  change (2 ^ 32) with 4294967296 in *. change (2 ^ 31) with 2147483648.
  Z.to_euclidean_division_equations. lia.
Qed.

Lemma to_u64_to_i64 (u : Z) : 0 <= u < 2 ^ 64 -> to_u64 (to_i64 u) = u.
Proof.
  unfold to_u64, to_i64. intros Hu.
  change (2 ^ 64) with 18446744073709551616 in *.
  change (2 ^ 63) with 9223372036854775808.
  Z.to_euclidean_division_equations. lia.
Qed.

Lemma to_i32_range (u : Z) : int32_range (to_i32 u).
Proof.
  unfold int32_range, to_i32.
  pose proof (Z.mod_pos_bound (u + 2 ^ 31) (2 ^ 32)). lia.
Qed.

Lemma to_i64_range (u : Z) : int64_range (to_i64 u).
Proof.
  unfold int64_range, to_i64.
  pose proof (Z.mod_pos_bound (u + 2 ^ 63) (2 ^ 64)). lia.
Qed.

(** Four bytes are the encoding of the int32 they decode to. *)
Lemma write_int32_be_value (a b c d : ascii) :
  NetworkLayer.write_int32 (to_i32 (NetworkLayer.be_value [a; b; c; d]))
  = [a; b; c; d].
Proof.
  unfold NetworkLayer.be_value. cbn [fold_left].
  pose proof (uchar_range a). pose proof (uchar_range b).
  pose proof (uchar_range c). pose proof (uchar_range d).
  rewrite !lor_shiftl_byte by assumption.
  set (u := ((0 * 256 + uchar a) * 256 + uchar b) * 256 + uchar c).
  unfold NetworkLayer.write_int32.
  rewrite to_u32_to_i32 by (subst u; lia).
  rewrite !Z.shiftr_div_pow2 by lia.
  change (2 ^ 24) with 16777216. change (2 ^ 16) with 65536.
  change (2 ^ 8) with 256.
  f_equal; [| f_equal; [| f_equal; [| f_equal]]];
    apply char_of_uchar_mod; subst u;
    Z.to_euclidean_division_equations; lia.
Qed.

Lemma lor_u64_shiftl_byte (acc b : Z) :
  0 <= acc < 2 ^ 56 -> 0 <= b < 256 ->
  Z.lor (to_u64 (Z.shiftl acc 8)) b = acc * 256 + b.
Proof.
  intros Hacc Hb. unfold to_u64.
  rewrite Z.mod_small; [now apply lor_shiftl_byte |].
  rewrite Z.shiftl_mul_pow2 by lia.
  change (2 ^ 56) with 72057594037927936 in Hacc.
  change (2 ^ 64) with 18446744073709551616. change (2 ^ 8) with 256. lia.
Qed.

(** Eight bytes are the encoding of the int64 they decode to. *)
Lemma write_int64_read_fold (b7 b6 b5 b4 b3 b2 b1 b0 : ascii) :
  NetworkLayer.write_int64
    (to_i64 (fold_left (fun uv c => Z.lor (to_u64 (Z.shiftl uv 8)) (uchar c))
                       [b7; b6; b5; b4; b3; b2; b1; b0] 0))
  = [b7; b6; b5; b4; b3; b2; b1; b0].
Proof.
  cbn [fold_left].
  pose proof (uchar_range b7). pose proof (uchar_range b6).
  pose proof (uchar_range b5). pose proof (uchar_range b4).
  pose proof (uchar_range b3). pose proof (uchar_range b2).
  pose proof (uchar_range b1). pose proof (uchar_range b0).
  change (2 ^ 56) with 72057594037927936 in *.
  rewrite (lor_u64_shiftl_byte 0 (uchar b7)) by lia.
  set (a7 := 0 * 256 + uchar b7).
  rewrite (lor_u64_shiftl_byte a7 (uchar b6)) by (subst a7; lia).
  set (a6 := a7 * 256 + uchar b6).
  rewrite (lor_u64_shiftl_byte a6 (uchar b5)) by (subst a6 a7; lia).
  set (a5 := a6 * 256 + uchar b5).
  rewrite (lor_u64_shiftl_byte a5 (uchar b4)) by (subst a5 a6 a7; lia).
  set (a4 := a5 * 256 + uchar b4).
  rewrite (lor_u64_shiftl_byte a4 (uchar b3)) by (subst a4 a5 a6 a7; lia).
  set (a3 := a4 * 256 + uchar b3).
  rewrite (lor_u64_shiftl_byte a3 (uchar b2)) by (subst a3 a4 a5 a6 a7; lia).
  set (a2 := a3 * 256 + uchar b2).
  rewrite (lor_u64_shiftl_byte a2 (uchar b1)) by (subst a2 a3 a4 a5 a6 a7; lia).
  set (a1 := a2 * 256 + uchar b1).
  rewrite (lor_u64_shiftl_byte a1 (uchar b0))
    by (subst a1 a2 a3 a4 a5 a6 a7; lia).
  set (u := a1 * 256 + uchar b0).
  assert (Hu : 0 <= u < 2 ^ 64).
  { change (2 ^ 64) with 18446744073709551616.
    subst u a1 a2 a3 a4 a5 a6 a7. lia. }
  unfold NetworkLayer.write_int64. rewrite (to_u64_to_i64 u Hu).
  cbn [List.map].
  assert (Hbyte : forall i c, 0 <= i ->
            (u / 2 ^ (i * 8)) mod 256 = uchar c ->
            char_of (Z.land (Z.shiftr u (i * 8)) 255) = c).
  { intros i c Hi Hc. apply char_of_uchar_mod.
    change 255 with (Z.ones 8). rewrite Z.land_ones by lia.
    change (2 ^ 8) with 256. rewrite Z.mod_mod by lia.
    now rewrite Z.shiftr_div_pow2 by lia. }
  f_equal; [| f_equal; [| f_equal; [| f_equal; [| f_equal;
    [| f_equal; [| f_equal; [| f_equal]]]]]]];
    apply Hbyte; try lia;
    match goal with |- context [2 ^ ?e] =>
      let v := eval cbv in (2 ^ e) in change (2 ^ e) with v end;
    subst u a1 a2 a3 a4 a5 a6 a7;
    Z.to_euclidean_division_equations; lia.
Qed.

Lemma length_string_of_list_ascii (l : list ascii) :
  String.length (string_of_list_ascii l) = length l.
Proof.
  rewrite <- length_list_ascii_of_string.
  now rewrite list_ascii_of_string_of_list_ascii.
Qed.

(** What a reader has accepted is, byte for byte, the encoding of what it
    returns, and the cursor has moved past it. *)
Lemma read_int32_sound (data : list ascii) (pos pos' : nat) (v : Z) :
  NetworkLayer.read_int32 data pos = Some (v, pos') ->
  pos' = (pos + 4)%nat /\ (pos' <= length data)%nat
  /\ drop pos data = NetworkLayer.write_int32 v ++ drop pos' data
  /\ int32_range v.
Proof.
  unfold NetworkLayer.read_int32.
  destruct (Nat.ltb_spec (length data) (pos + 4)) as [| Hle]; [discriminate |].
  intros Heq. injection Heq as <- <-.
  split; [reflexivity |]. split; [exact Hle |]. split; [| apply to_i32_range].
  rewrite <- (take_drop 4 (drop pos data)) at 1. rewrite drop_drop. f_equal.
  assert (Hlen : (4 <= length (drop pos data))%nat)
    by (rewrite length_drop; lia).
  destruct (drop pos data) as [| a [| b [| c [| d l]]]]; cbn in Hlen; try lia.
  cbn [take]. symmetry. apply write_int32_be_value.
Qed.

Lemma read_int64_sound (data : list ascii) (pos pos' : nat) (v : Z) :
  NetworkLayer.read_int64 data pos = Some (v, pos') ->
  pos' = (pos + 8)%nat /\ (pos' <= length data)%nat
  /\ drop pos data = NetworkLayer.write_int64 v ++ drop pos' data
  /\ int64_range v.
Proof.
  unfold NetworkLayer.read_int64.
  destruct (Nat.ltb_spec (length data) (pos + 8)) as [| Hle]; [discriminate |].
  cbv zeta. intros Heq. injection Heq as <- <-.
  split; [reflexivity |]. split; [exact Hle |]. split; [| apply to_i64_range].
  rewrite <- (take_drop 8 (drop pos data)) at 1. rewrite drop_drop. f_equal.
  assert (Hlen : (8 <= length (drop pos data))%nat)
    by (rewrite length_drop; lia).
  destruct (drop pos data)
    as [| b7 [| b6 [| b5 [| b4 [| b3 [| b2 [| b1 [| b0 l]]]]]]]];
    cbn in Hlen; try lia.
  cbn [take]. symmetry. apply write_int64_read_fold.
Qed.

Lemma read_string_sound (data : list ascii) (pos pos' : nat) (s : string) :
  NetworkLayer.read_string data pos = Some (s, pos') ->
  pos' = (pos + 4 + String.length s)%nat /\ (pos' <= length data)%nat
  /\ drop pos data = NetworkLayer.write_string s ++ drop pos' data
  /\ Z.of_nat (String.length s) < 2 ^ 31.
Proof.
  unfold NetworkLayer.read_string, NetworkLayer.rbind.
  destruct (NetworkLayer.read_int32 data pos) as [[len p1] |] eqn:Hlen;
    [| discriminate].
  apply read_int32_sound in Hlen as (-> & Hp1 & Hdrop & Hrange).
  destruct (Z.ltb_spec len 0) as [| Hnn]; [discriminate |].
  destruct (Z.ltb_spec (Z.of_nat (length data)) (Z.of_nat (pos + 4) + len))
    as [| Hfit]; [discriminate |].
  cbn [orb]. intros Heq. injection Heq as <- <-.
  assert (Hs : String.length
                 (string_of_list_ascii
                    (take (Z.to_nat len) (drop (pos + 4) data)))
               = Z.to_nat len).
  { rewrite length_string_of_list_ascii, length_take, length_drop. lia. }
  rewrite Hs. unfold int32_range in Hrange.
  split; [reflexivity |]. split; [lia |]. split; [| lia].
  unfold NetworkLayer.write_string.
  rewrite Hs, list_ascii_of_string_of_list_ascii, Z2Nat.id by lia.
  replace (to_i32 len) with len
    by (unfold to_i32; rewrite Z.mod_small; lia).
  rewrite Hdrop, <- app_assoc. f_equal.
  rewrite <- (take_drop (Z.to_nat len) (drop (pos + 4) data)) at 1.
  now rewrite drop_drop.
Qed.

Lemma Deserialize_sound (data : list ascii) (m : Message) :
  NetworkLayer.Deserialize data = Some m ->
  wire_message m
  /\ data = NetworkLayer.Serialize m
            ++ drop (length (NetworkLayer.Serialize m)) data.
Proof.
  unfold NetworkLayer.Deserialize, NetworkLayer.rbind, NetworkLayer.rret.
  destruct (NetworkLayer.read_int32 data 0%nat) as [[ty p1] |] eqn:H1;
    [| discriminate].
  destruct (NetworkLayer.read_int64 data p1) as [[ts p2] |] eqn:H2;
    [| discriminate].
  destruct (NetworkLayer.read_string data p2) as [[s p3] |] eqn:H3;
    [| discriminate].
  destruct (NetworkLayer.read_string data p3) as [[t p4] |] eqn:H4;
    [| discriminate].
  destruct (NetworkLayer.read_string data p4) as [[c p5] |] eqn:H5;
    [| discriminate].
  cbn [fmap option_fmap option_map fst]. intros Heq. injection Heq as <-.
  apply read_int32_sound in H1 as (-> & _ & D1 & R1).
  apply read_int64_sound in H2 as (-> & _ & D2 & R2).
  apply read_string_sound in H3 as (-> & _ & D3 & R3).
  apply read_string_sound in H4 as (-> & _ & D4 & R4).
  apply read_string_sound in H5 as (-> & _ & D5 & R5).
  split; [exact (conj R1 (conj R2 (conj R3 (conj R4 R5)))) |].
  unfold NetworkLayer.Serialize.
  cbn [type timestamp sender_username target_username content].
  rewrite !length_app, !length_write_string.
  change (length (NetworkLayer.write_int32 ty)) with 4%nat.
  change (length (NetworkLayer.write_int64 ts)) with 8%nat.
  rewrite <- !app_assoc.
  rewrite drop_0 in D1. rewrite D1 at 1. f_equal.
  rewrite D2. f_equal. rewrite D3. f_equal. rewrite D4. f_equal.
  rewrite D5. f_equal. f_equal. lia.
Qed.

(** X1: [Deserialize] accepts a buffer exactly when the buffer starts with
    the encoding of a message that fits the wire format (an int32 type, an
    int64 timestamp, strings shorter than 2^31), and it returns that
    message; what follows the encoding is not looked at. *)
Theorem Deserialize_accepts_exactly_encodings (data : list ascii) (m : Message) :
  NetworkLayer.Deserialize data = Some m
  <-> wire_message m /\ exists rest, data = NetworkLayer.Serialize m ++ rest.
Proof.
  split.
  - intros Hd. apply Deserialize_sound in Hd as [Hm Hdata].
    split; [exact Hm | eexists; exact Hdata].
  - intros [Hm [rest ->]]. now apply Deserialize_encoded_prefix.
Qed.

Lemma length_Serialize (m : Message) :
  length (NetworkLayer.Serialize m)
  = (24 + String.length (sender_username m)
     + String.length (target_username m) + String.length (content m))%nat.
Proof.
  unfold NetworkLayer.Serialize. rewrite !length_app, !length_write_string.
  change (length (NetworkLayer.write_int32 (type m))) with 4%nat.
  change (length (NetworkLayer.write_int64 (timestamp m))) with 8%nat. lia.
Qed.

(** X2: a buffer of fewer than 24 bytes (the empty one among them) is
    rejected, and a buffer that is accepted holds at least the 24 bytes of
    the fixed fields and length prefixes plus the characters of the three
    strings of the message returned. *)
Theorem Deserialize_needs_whole_message (data : list ascii) :
  ((length data < 24)%nat -> NetworkLayer.Deserialize data = None)
  /\ (forall m, NetworkLayer.Deserialize data = Some m ->
        (24 + String.length (sender_username m)
         + String.length (target_username m) + String.length (content m)
         <= length data)%nat).
Proof.
  assert (Hmin : forall m, NetworkLayer.Deserialize data = Some m ->
            (24 + String.length (sender_username m)
             + String.length (target_username m) + String.length (content m)
             <= length data)%nat).
  { intros m Hd. apply Deserialize_sound in Hd as [_ Hdata].
    rewrite Hdata at 1. rewrite length_app, length_Serialize. lia. }
  split; [| exact Hmin].
  intros Hshort.
  destruct (NetworkLayer.Deserialize data) as [m |] eqn:Hd; [| reflexivity].
  specialize (Hmin m eq_refl). lia.
Qed.

Lemma Deserialize_needs_whole_message_witness :
  NetworkLayer.Deserialize [] = None.
Proof.
  apply (proj1 (Deserialize_needs_whole_message [])). cbn. lia.
Defined.

(** X3: the encoding is a prefix code: when two buffers that start with
    the encodings of two messages are equal, the messages are the same and
    so is what follows them; in particular no two messages share an
    encoding. *)
Theorem Serialize_prefix_free (m1 m2 : Message) (rest1 rest2 : list ascii) :
  wire_message m1 -> wire_message m2 ->
  NetworkLayer.Serialize m1 ++ rest1 = NetworkLayer.Serialize m2 ++ rest2 ->
  m1 = m2 /\ rest1 = rest2.
Proof.
  intros H1 H2 Heq.
  pose proof (Deserialize_encoded_prefix m1 rest1 H1) as D1.
  pose proof (Deserialize_encoded_prefix m2 rest2 H2) as D2.
  rewrite Heq, D2 in D1. injection D1 as ->.
  split; [reflexivity |]. now apply app_inv_head in Heq.
Qed.

Lemma Serialize_prefix_free_witness :
  mkMessage (code PUBLIC_MESSAGE) 5 "a" "" "hi"
  = mkMessage (code PUBLIC_MESSAGE) 5 "a" "" "hi"
  /\ ["x"%char] = ["x"%char].
Proof.
  apply Serialize_prefix_free.
  - unfold wire_message, int32_range, int64_range; cbn; lia.
  - unfold wire_message, int32_range, int64_range; cbn; lia.
  - reflexivity.
Defined.

(** ** Frames on a stream *)

(** After a message has been received, what is left of the stream delivers
    the bytes that followed the frame. *)
Lemma ReceiveMessage_stream_rest (stream : list (list ascii)) (m : Message) :
  fst (NetworkLayer.ReceiveMessage_stream stream) = Some m ->
  let bytes := available stream in
  let total_len := to_i32 (NetworkLayer.be_value (take 4 bytes)) in
  available (snd (NetworkLayer.ReceiveMessage_stream stream))
  = drop (4 + Z.to_nat total_len) bytes.
Proof.
  unfold NetworkLayer.ReceiveMessage_stream. cbv zeta.
  pose proof (recv_all_available stream 4) as H4.
  destruct (NetworkLayer.recv_all stream 4) as [[net_len |] rest];
    cbn [fst snd] in *; [| discriminate].
  destruct (Nat.leb_spec 4 (length (available stream))); [| discriminate].
  destruct H4 as [Hnet Hrest]. injection Hnet as ->.
  destruct (Z.leb_spec (to_i32 (NetworkLayer.be_value (take 4 (available stream)))) 0);
    [discriminate |].
  set (n := Z.to_nat _).
  pose proof (recv_all_available rest n) as Hn.
  destruct (NetworkLayer.recv_all rest n) as [[buf |] rest'];
    cbn [fst snd] in *; [| discriminate].
  destruct (Nat.leb_spec n (length (available rest))); [| discriminate].
  destruct Hn as [_ ->]. intros _. rewrite Hrest, drop_drop. reflexivity.
Qed.

(** X4: what [ReceiveMessage] returns depends on the bytes that arrive
    before a [recv] fails, not on how [recv] hands them out: two streams
    that deliver the same bytes give the same result. *)
Theorem ReceiveMessage_stream_segmentation (s1 s2 : list (list ascii)) :
  available s1 = available s2 ->
  fst (NetworkLayer.ReceiveMessage_stream s1)
  = fst (NetworkLayer.ReceiveMessage_stream s2).
Proof.
  intros Hav. rewrite !ReceiveMessage_stream_available. now rewrite Hav.
Qed.

Lemma ReceiveMessage_stream_segmentation_witness :
  fst (NetworkLayer.ReceiveMessage_stream
         [take 3 (reply_frame "bob"); drop 3 (reply_frame "bob")])
  = fst (NetworkLayer.ReceiveMessage_stream [reply_frame "bob"]).
Proof.
  apply ReceiveMessage_stream_segmentation. vm_compute. reflexivity.
Defined.

(** X5: when the bytes that arrive start with the frame [SendMessage]
    writes for a message, however they are cut into reads,
    [ReceiveMessage] returns that message and leaves on the stream exactly
    the bytes that followed the frame. *)
Theorem ReceiveMessage_stream_takes_one_frame
    (stream : list (list ascii)) (m : Message) (tail : list ascii) :
  wire_message m ->
  Z.of_nat (length (NetworkLayer.Serialize m)) < 2 ^ 31 ->
  available stream = NetworkLayer.frame m ++ tail ->
  fst (NetworkLayer.ReceiveMessage_stream stream) = Some m
  /\ available (snd (NetworkLayer.ReceiveMessage_stream stream)) = tail.
Proof.
  intros Hm Hlen Hav.
  set (serialized := NetworkLayer.Serialize m) in *.
  assert (Hpos : (24 <= length serialized)%nat)
    by (subst serialized; rewrite length_Serialize; lia).
  assert (Hframe : NetworkLayer.frame m
                   = NetworkLayer.write_int32 (Z.of_nat (length serialized))
                     ++ serialized).
  { unfold NetworkLayer.frame. fold serialized. cbv zeta.
    unfold to_i32 at 1. rewrite Z.mod_small by lia.
    now replace (Z.of_nat (length serialized) + 2 ^ 31 - 2 ^ 31)
      with (Z.of_nat (length serialized)) by lia. }
  assert (Htotal : to_i32 (NetworkLayer.be_value (take 4 (available stream)))
                   = Z.of_nat (length serialized)).
  { rewrite Hav, Hframe, <- app_assoc.
    rewrite take_app_length' by reflexivity.
    rewrite be_value_write_int32. apply to_i32_to_u32. unfold int32_range. lia. }
  assert (Hfst : fst (NetworkLayer.ReceiveMessage_stream stream) = Some m).
  { rewrite ReceiveMessage_stream_available. cbv zeta. rewrite Htotal.
    rewrite Hav, Hframe, <- app_assoc, !length_app.
    change (length (NetworkLayer.write_int32 (Z.of_nat (length serialized))))
      with 4%nat.
    destruct (Nat.ltb_spec (4 + (length serialized + length tail)) 4); [lia |].
    destruct (Z.leb_spec (Z.of_nat (length serialized)) 0); [lia |].
    destruct (Z.ltb_spec (Z.of_nat (4 + (length serialized + length tail)))
                (4 + Z.of_nat (length serialized))); [lia |].
    rewrite drop_app_length' by reflexivity.
    rewrite Nat2Z.id, take_app_length.
    rewrite <- (app_nil_r serialized). subst serialized.
    now apply Deserialize_encoded_prefix. }
  split; [exact Hfst |].
  rewrite (ReceiveMessage_stream_rest stream m Hfst). rewrite Htotal.
  rewrite Hav, Hframe, <- app_assoc, Nat2Z.id.
  rewrite <- drop_drop. rewrite drop_app_length' by reflexivity.
  apply drop_app_length.
Qed.

Lemma ReceiveMessage_stream_takes_one_frame_witness :
  let stream :=
    [take 3 (NetworkLayer.frame (mkMessage (code PUBLIC_MESSAGE) 0 "" "" "hi"));
     drop 3 (NetworkLayer.frame (mkMessage (code PUBLIC_MESSAGE) 0 "" "" "hi"))
       ++ take 9 (reply_frame "bob");
     drop 9 (reply_frame "bob")] in
  fst (NetworkLayer.ReceiveMessage_stream stream)
  = Some (mkMessage (code PUBLIC_MESSAGE) 0 "" "" "hi")
  /\ available (snd (NetworkLayer.ReceiveMessage_stream stream))
     = reply_frame "bob".
Proof.
  cbv zeta. apply ReceiveMessage_stream_takes_one_frame.
  - unfold wire_message, int32_range, int64_range; cbn; lia.
  - vm_compute. reflexivity.
  - vm_compute. reflexivity.
Defined.

(** ** The registry *)

(** X6: [AddUser] followed by a lookup: the name is no longer free and
    [GetSocket] gives the socket just registered, also when the name was
    registered before (the entry is replaced, not added: the number of
    entries does not change then); the other names are as they were. *)
Theorem AddUser_then_lookup (user : User) (sock : Socket) (w : World) :
  let w' := snd (UserManager.AddUser user sock w) in
  fst (UserManager.GetSocket (username user) w') = sock
  /\ fst (UserManager.CheckUniqueness (username user) w') = false
  /\ (forall other, other <> username user ->
        fst (UserManager.GetSocket other w') = fst (UserManager.GetSocket other w)
        /\ fst (UserManager.CheckUniqueness other w')
           = fst (UserManager.CheckUniqueness other w))
  /\ (g_users w !! username user <> None -> size (g_users w') = size (g_users w))
  /\ (g_users w !! username user = None -> size (g_users w') = S (size (g_users w))).
Proof.
  cbv zeta. unfold UserManager.AddUser, UserManager.GetSocket,
    UserManager.CheckUniqueness.
  cbn [fst snd g_users set_users].
  split; [now rewrite lookup_insert_eq |].
  split; [rewrite lookup_insert_eq; now apply bool_decide_eq_false_2 |].
  split.
  - intros other Hne. now rewrite lookup_insert_ne by congruence.
  - split.
    + intros Hin. destruct (g_users w !! username user) as [p |] eqn:Hp;
        [| contradiction].
      apply map_size_insert_Some. now rewrite Hp.
    + intros Hfree. now apply map_size_insert_None.
Qed.

Lemma AddUser_then_lookup_witness :
  size (g_users (snd (UserManager.AddUser (mkUser 9 "alice" true 0) 9 world_ab)))
  = size (g_users world_ab).
Proof.
  pose proof (AddUser_then_lookup (mkUser 9 "alice" true 0) 9 world_ab) as H.
  cbv zeta in H. destruct H as (_ & _ & _ & H & _).
  apply H. vm_compute. discriminate.
Defined.

(** X7: after [RemoveUser] the name is free again and [GetSocket] answers
    -1 for it; the other names are as they were; removing a name that is
    not registered changes nothing; and removing a user that was added
    under a free name gives back the registry as it was. *)
Theorem RemoveUser_then_lookup (name : string) (w : World) :
  let w' := snd (UserManager.RemoveUser name w) in
  fst (UserManager.CheckUniqueness name w') = true
  /\ fst (UserManager.GetSocket name w') = -1
  /\ (forall other, other <> name ->
        fst (UserManager.GetSocket other w') = fst (UserManager.GetSocket other w))
  /\ (g_users w !! name = None -> w' = w)
  /\ (forall user sock,
        username user = name -> g_users w !! name = None ->
        g_users (snd (UserManager.RemoveUser name
                        (snd (UserManager.AddUser user sock w))))
        = g_users w).
Proof.
  cbv zeta. unfold UserManager.RemoveUser, UserManager.AddUser,
    UserManager.GetSocket, UserManager.CheckUniqueness.
  cbn [fst snd g_users set_users].
  split; [rewrite lookup_delete_eq; now apply bool_decide_eq_true_2 |].
  split; [now rewrite lookup_delete_eq |].
  split; [intros other Hne; now rewrite lookup_delete_ne by congruence |].
  split.
  - intros Hfree. unfold set_users. rewrite (delete_id _ _ Hfree).
    now destruct w.
  - intros user sock <- Hfree. now apply delete_insert_id.
Qed.

Lemma RemoveUser_then_lookup_witness :
  snd (UserManager.RemoveUser "carol" world_ab) = world_ab.
Proof.
  pose proof (RemoveUser_then_lookup "carol" world_ab) as H.
  cbv zeta in H. destruct H as (_ & _ & _ & H & _).
  apply H. vm_compute. reflexivity.
Defined.

(** X8: [GetAllUsernames] lists every registered name once and nothing
    else: the list has no duplicates, its length is the number of entries,
    a name is in it exactly when [CheckUniqueness] says it is taken, and
    the world is left as it was. *)
Theorem GetAllUsernames_exact (w : World) :
  let names := fst (UserManager.GetAllUsernames w) in
  NoDup names
  /\ length names = size (g_users w)
  /\ (forall name,
        name ∈ names <-> fst (UserManager.CheckUniqueness name w) = false)
  /\ snd (UserManager.GetAllUsernames w) = w.
Proof.
  cbv zeta. unfold UserManager.GetAllUsernames, UserManager.CheckUniqueness.
  cbn [fst snd].
  split; [apply NoDup_fst_map_to_list |].
  split; [now rewrite length_fmap, length_map_to_list |].
  split; [| reflexivity].
  intros name. rewrite list_elem_of_fmap. split.
  - intros ([name' p] & -> & Hin). apply elem_of_map_to_list in Hin.
    apply bool_decide_eq_false_2. cbn. now rewrite Hin.
  - intros Hb. apply bool_decide_eq_false_1 in Hb.
    destruct (g_users w !! name) as [p |] eqn:Hp; [| contradiction].
    exists (name, p). split; [reflexivity | now apply elem_of_map_to_list].
Qed.

(** ** Routing and announcements *)

(** X9: when the target of a private message is registered (with a socket
    descriptor, which -1 is not), [SendPrivate] hands the message, as it
    is, to the target's socket and does nothing else: one send, nothing to
    the sender, no reading of the clock. *)
Theorem SendPrivate_target_present
    (msg : Message) (w : World) (user : User) (target_socket : Socket) :
  g_users w !! target_username msg = Some (user, target_socket) ->
  target_socket <> -1 ->
  MessageRouter.SendPrivate msg w = (tt, add_sent target_socket msg w).
Proof.
  intros Htarget Hne.
  unfold MessageRouter.SendPrivate, bind, UserManager.GetSocket.
  cbv beta. rewrite Htarget. cbn [snd].
  destruct (Z.eqb_spec target_socket (-1)); [contradiction |].
  reflexivity.
Qed.

Lemma SendPrivate_target_present_witness :
  MessageRouter.SendPrivate
    (mkMessage (code PRIVATE_MESSAGE) 1700000000123 "alice" "bob" "hello")
    world_ab
  = (tt, add_sent 5
           (mkMessage (code PRIVATE_MESSAGE) 1700000000123 "alice" "bob" "hello")
           world_ab).
Proof.
  apply (SendPrivate_target_present _ world_ab (mkUser 5 "bob" true 1699999999500)).
  - vm_compute. reflexivity.
  - discriminate.
Defined.

(** ** Logging *)





Lemma files_foldl_add_sent (l : list Socket) (msg : Message) (w : World) :
  files (foldl (fun w s => add_sent s msg w) w l) = files w
  /\ g_current_log_file (foldl (fun w s => add_sent s msg w) w l)
     = g_current_log_file w
  /\ closed (foldl (fun w s => add_sent s msg w) w l) = closed w
  /\ ticks (foldl (fun w s => add_sent s msg w) w l) = ticks w
  /\ clock (foldl (fun w s => add_sent s msg w) w l) = clock w.
Proof.
  revert w. induction l as [| s l IH]; intros w; cbn; [repeat split |].
  destruct (IH (add_sent s msg w)) as (-> & -> & -> & -> & ->). repeat split.
Qed.




(** ** The command processor, the other branches *)

Lemma length_string_app (s1 s2 : string) :
  String.length (s1 ++ s2) = (String.length s1 + String.length s2)%nat.
Proof.
  induction s1 as [| c s1 IH]; [reflexivity |].
  simpl. now rewrite IH.
Qed.



Lemma only_sent_more_trans (w1 w2 w3 : World) :
  only_sent_more w1 w2 -> only_sent_more w2 w3 -> only_sent_more w1 w3.
Proof.
  intros (Hu1 & Hc1 & e1 & Hs1) (Hu2 & Hc2 & e2 & Hs2).
  split; [congruence |]. split; [congruence |].
  exists (e1 ++ e2). now rewrite Hs2, Hs1, app_assoc.
Qed.

Lemma only_sent_more_add_sent (s : Socket) (m : Message) (w : World) :
  only_sent_more w (add_sent s m w).
Proof. repeat split. now exists [(s, m)]. Qed.

Lemma only_sent_more_foldl (l : list Socket) (m : Message) (w : World) :
  only_sent_more w (foldl (fun w s => add_sent s m w) w l).
Proof.
  split; [apply g_users_foldl_add_sent |].
  split; [apply files_foldl_add_sent |].
  eexists. apply sent_foldl_add_sent.
Qed.

Lemma only_sent_more_SendPrivate (msg : Message) (w : World) :
  only_sent_more w (snd (MessageRouter.SendPrivate msg w)).
Proof.
  unfold MessageRouter.SendPrivate, bind, UserManager.GetSocket, NowEpochMs.
  cbv beta iota.
  destruct (negb _); [apply only_sent_more_add_sent |].
  cbn [g_users tick].
  destruct (negb _); [| repeat split; exists []; now rewrite app_nil_r].
  apply (only_sent_more_trans w (tick w)); [| apply only_sent_more_add_sent].
  repeat split. exists []. now rewrite app_nil_r.
Qed.

Lemma only_sent_more_LogFromMessage (msg : Message) (w : World) :
  only_sent_more w (snd (LoggingService.LogFromMessage msg w)).
Proof. repeat split. exists []. now rewrite app_nil_r. Qed.

Lemma only_sent_more_Process (msg : Message) (sock : Socket) (w : World) :
  only_sent_more w (snd (CommandProcessor.Process msg sock w)).
Proof.
  unfold CommandProcessor.Process.
  destruct (type msg =? code USER_LIST_REQUEST).
  { repeat split. now eexists [_]. }
  destruct (type msg =? code PRIVATE_MESSAGE).
  { unfold bind. pose proof (only_sent_more_SendPrivate msg w) as Hp.
    destruct (MessageRouter.SendPrivate msg w) as [[] w1]. cbn [snd] in *.
    eapply only_sent_more_trans; [exact Hp |].
    apply only_sent_more_LogFromMessage. }
  destruct (type msg =? code PUBLIC_MESSAGE).
  { unfold bind. rewrite BroadcastPublic_eq.
    eapply only_sent_more_trans; [apply only_sent_more_foldl |].
    apply only_sent_more_LogFromMessage. }
  destruct (_ && _); repeat split; now eexists [_].
Qed.

(** X13: whatever the message, [Process] answers CONTINUE or DISCONNECT,
    registers and removes nobody, closes no socket, reads from no socket,
    and takes back nothing of what was sent before. *)
Theorem Process_only_sends (msg : Message) (sock : Socket) (w : World) :
  let w' := snd (CommandProcessor.Process msg sock w) in
  (fst (CommandProcessor.Process msg sock w) = "CONTINUE"%string
   \/ fst (CommandProcessor.Process msg sock w) = "DISCONNECT"%string)
  /\ g_users w' = g_users w
  /\ closed w' = closed w
  /\ inbound w' = inbound w
  /\ exists extra, sent w' = sent w ++ extra.
Proof.
  cbv zeta. split.
  - unfold CommandProcessor.Process.
    destruct (type msg =? code USER_LIST_REQUEST); [left; verdict |].
    destruct (type msg =? code PRIVATE_MESSAGE); [left; verdict |].
    destruct (type msg =? code PUBLIC_MESSAGE); [left; verdict |].
    destruct (_ && _); [right | left]; reflexivity.
  - destruct (only_sent_more_Process msg sock w) as (Hu & Hc & Hs).
    split; [exact Hu |]. split; [exact Hc |].
    split; [apply inbound_Process | exact Hs].
Qed.



(** ** Authentication, the other outcomes *)

Lemma Authenticate_loop_result (n : nat) (sock : Socket) (w : World) :
  let w' := snd (UserManager.Authenticate_loop n sock w) in
  closed w' = closed w
  /\ (exists extra, sent w' = sent w ++ extra)
  /\ match fst (UserManager.Authenticate_loop n sock w) with
     | Some user =>
         id user = sock /\ connected user = true
         /\ g_users w !! username user = None
         /\ g_users w' = <[username user := (user, sock)]> (g_users w)
         /\ exists before now,
              sent w' = before
                        ++ [(sock, server_command "USERNAME_ACCEPTED" now)]
     | None => g_users w' = g_users w
     end.
Proof.
  cbv zeta. revert w. induction n as [| n IH]; intros w.
  - cbn. repeat split. now eexists [_].
  - rewrite Authenticate_loop_S. cbv zeta.
    destruct (NetworkLayer.ReceiveMessage_stream (default [] (inbound w !! sock)))
      as [[reply |] rest].
    + destruct (bool_decide (g_users w !! content reply = None)) eqn:Hfree.
      * apply bool_decide_eq_true_1 in Hfree.
        cbn [fst snd closed sent g_users add_sent tick set_users set_inbound
             id connected username].
        split; [reflexivity |]. split.
        { eexists [_; _]. now rewrite <- app_assoc. }
        repeat split; try assumption. eexists _, _. reflexivity.
      * match goal with |- context [UserManager.Authenticate_loop n sock ?w2] =>
          specialize (IH w2) end.
        cbn [closed sent g_users add_sent tick set_users set_inbound] in IH.
        destruct IH as (Hc & (extra & Hs) & Hr).
        split; [exact Hc |]. split.
        { eexists (_ :: _ :: extra). rewrite Hs, <- !app_assoc. reflexivity. }
        exact Hr.
    + cbn [fst snd closed sent g_users add_sent tick set_users set_inbound].
      repeat split. now eexists [_].
Qed.

(** X15: when [Authenticate] returns a user, the user's id is the socket,
    it is marked connected, its name was free, the registry is the old one
    with that one entry added under the name, and the last thing sent is
    USERNAME_ACCEPTED to the socket; when it returns no user the registry is
    as it was.  In both cases no socket was closed and nothing sent before
    was taken back. *)
Theorem Authenticate_registers_what_it_returns (sock : Socket) (w : World) :
  let w' := snd (UserManager.Authenticate sock w) in
  closed w' = closed w
  /\ (exists extra, sent w' = sent w ++ extra)
  /\ (forall user,
        fst (UserManager.Authenticate sock w) = Some user ->
        id user = sock /\ connected user = true
        /\ g_users w !! username user = None
        /\ g_users w' = <[username user := (user, sock)]> (g_users w)
        /\ exists before now,
             sent w' = before ++ [(sock, server_command "USERNAME_ACCEPTED" now)])
  /\ (fst (UserManager.Authenticate sock w) = None -> g_users w' = g_users w).
Proof.
  cbv zeta. unfold UserManager.Authenticate.
  pose proof (Authenticate_loop_result kAuthMaxRetries sock w) as H.
  cbv zeta in H. destruct H as (Hc & Hs & Hr).
  split; [exact Hc |]. split; [exact Hs |]. split.
  - intros user Hu. now rewrite Hu in Hr.
  - intros Hn. now rewrite Hn in Hr.
Qed.

(** X16: a name that is taken followed by a name that is free: the first is
    answered USERNAME_TAKEN, the second USERNAME_ACCEPTED, and the user
    returned and registered bears the second name. *)
Theorem Authenticate_retry_accepted
    (sock : Socket) (w : World) (r1 r2 : Message)
    (st1 st2 : list (list ascii)) :
  NetworkLayer.ReceiveMessage_stream (default [] (inbound w !! sock))
    = (Some r1, st1) ->
  NetworkLayer.ReceiveMessage_stream st1 = (Some r2, st2) ->
  g_users w !! content r1 <> None ->
  g_users w !! content r2 = None ->
  let says c k := (sock, server_command c (clock w (ticks w + k)%nat)) in
  let user := mkUser sock (content r2) true (clock w (ticks w + 3)%nat) in
  let w' := snd (UserManager.Authenticate sock w) in
  fst (UserManager.Authenticate sock w) = Some user
  /\ sent w'
     = sent w ++ [says "ENTER_USERNAME"%string 0%nat; says "USERNAME_TAKEN"%string 1%nat;
                  says "ENTER_USERNAME"%string 2%nat;
                  says "USERNAME_ACCEPTED"%string 4%nat]
  /\ g_users w' = <[content r2 := (user, sock)]> (g_users w)
  /\ inbound w' !! sock = Some st2.
Proof.
  intros H1 H2 Hr1 Hr2. cbv zeta.
  unfold UserManager.Authenticate, kAuthMaxRetries.
  rewrite Authenticate_loop_S. cbv zeta. rewrite H1.
  rewrite bool_decide_eq_false_2 by exact Hr1.
  rewrite Authenticate_loop_S. cbv zeta.
  cbn [inbound g_users clock ticks add_sent tick set_inbound].
  rewrite lookup_insert_eq. change (default [] (Some st1)) with st1.
  rewrite H2. rewrite bool_decide_eq_true_2 by exact Hr2.
  cbn [fst snd sent g_users inbound add_sent tick set_users set_inbound].
  replace (ticks w + 0)%nat with (ticks w) by lia.
  replace (ticks w + 1)%nat with (S (ticks w)) by lia.
  replace (ticks w + 2)%nat with (S (S (ticks w))) by lia.
  replace (ticks w + 3)%nat with (S (S (S (ticks w)))) by lia.
  replace (ticks w + 4)%nat with (S (S (S (S (ticks w))))) by lia.
  split; [reflexivity |]. split; [now rewrite <- !app_assoc |].
  split; [reflexivity |]. now rewrite lookup_insert_eq.
Qed.

Lemma Authenticate_registers_what_it_returns_witness :
  g_users world_retry !! "carol"%string = None
  /\ g_users (snd (UserManager.Authenticate 6 world_three_taken))
     = g_users world_three_taken.
Proof.
  pose proof (Authenticate_registers_what_it_returns 6 world_retry) as H.
  cbv zeta in H. destruct H as (_ & _ & H & _).
  specialize (H (mkUser 6 "carol" true 1700000000003)).
  destruct H as (_ & _ & Hfree & _); [vm_compute; reflexivity |].
  split; [exact Hfree |].
  pose proof (Authenticate_registers_what_it_returns 6 world_three_taken) as H.
  cbv zeta in H. destruct H as (_ & _ & _ & H).
  apply H. vm_compute. reflexivity.
Defined.

Lemma Authenticate_retry_accepted_witness :
  fst (UserManager.Authenticate 6 world_retry)
  = Some (mkUser 6 "carol" true 1700000000003).
Proof.
  pose proof (Authenticate_retry_accepted 6 world_retry
    (mkMessage (code COMMAND_RESPONSE) 1700000000050 "" "" "alice")
    (mkMessage (code COMMAND_RESPONSE) 1700000000050 "" "" "carol")
    [reply_frame "carol"] []) as H.
  cbv zeta in H. destruct H as (H & _).
  - vm_compute. reflexivity.
  - vm_compute. reflexivity.
  - vm_compute. discriminate.
  - vm_compute. reflexivity.
  - exact H.
Defined.

(** X17: when the peer goes away instead of answering the prompt,
    [Authenticate] returns no user having sent the prompt and nothing else
    (no AUTH_FAILED), and [ServeClient] closes the socket without sending,
    logging or registering anything. *)
Theorem Authenticate_peer_gone
    (sock : Socket) (w : World) (rest : list (list ascii)) :
  NetworkLayer.ReceiveMessage_stream (default [] (inbound w !! sock))
    = (None, rest) ->
  0 <= sock ->
  let prompt := server_command "ENTER_USERNAME" (clock w (ticks w)) in
  UserManager.Authenticate sock w
  = (None, set_inbound sock rest (add_sent sock prompt (tick w)))
  /\ ClientHandler.ServeClient sock w
     = (tt, add_closed sock
              (set_inbound sock rest (add_sent sock prompt (tick w)))).
Proof.
  intros Hrecv Hsock. cbv zeta.
  assert (Hauth : UserManager.Authenticate sock w
                  = (None, set_inbound sock rest
                             (add_sent sock
                                (server_command "ENTER_USERNAME"
                                   (clock w (ticks w))) (tick w)))).
  { unfold UserManager.Authenticate, kAuthMaxRetries.
    rewrite Authenticate_loop_S. cbv zeta. now rewrite Hrecv. }
  split; [exact Hauth |].
  unfold ClientHandler.ServeClient, bind. rewrite Hauth.
  unfold NetworkLayer.Close. destruct (Z.leb_spec 0 sock); [reflexivity | lia].
Qed.

Lemma Authenticate_peer_gone_witness :
  fst (UserManager.Authenticate 6 world_ab) = None.
Proof.
  pose proof (Authenticate_peer_gone 6 world_ab []) as H.
  cbv zeta in H. destruct H as (H & _).
  - vm_compute. reflexivity.
  - lia.
  - now rewrite H.
Defined.

(** ** The session, from join to leave *)







(** X19: a COMMAND_RESPONSE with content BYE ends the receive loop: GOODBYE
    is sent to the client and the loop returns at once, so that frames
    that follow the BYE on the socket are left unread. *)
Theorem ServeLoop_bye_stops
    (fuel : nat) (user : User) (sock : Socket) (w w1 : World)
    (incoming : Message) :
  connected user = true ->
  NetworkLayer.ReceiveMessage sock w = (Some incoming, w1) ->
  type incoming = code COMMAND_RESPONSE ->
  content incoming = "BYE"%string ->
  let w2 := if timestamp incoming =? 0 then tick w1 else w1 in
  ClientHandler.ServeLoop (S fuel) user sock w
  = (tt, add_sent sock (server_command "GOODBYE" (clock w2 (ticks w2))) (tick w2))
  /\ inbound (snd (ClientHandler.ServeLoop (S fuel) user sock w)) = inbound w1.
Proof.
  intros Hconn Hrecv Hty Hbye. cbv zeta.
  assert (Heq : ClientHandler.ServeLoop (S fuel) user sock w
    = (tt, add_sent sock
             (server_command "GOODBYE"
                (clock (if timestamp incoming =? 0 then tick w1 else w1)
                       (ticks (if timestamp incoming =? 0 then tick w1 else w1))))
             (tick (if timestamp incoming =? 0 then tick w1 else w1)))).
  { rewrite (ServeLoop_turn fuel user sock w Hconn), Hrecv. cbv zeta.
    unfold CommandProcessor.Process.
    cbn [type content]. rewrite Hty, Hbye. reflexivity. }
  split; [exact Heq |]. rewrite Heq. cbn [snd inbound add_sent tick].
  now destruct (timestamp incoming =? 0).
Qed.

Lemma ServeLoop_bye_stops_witness :
  inbound (snd (ClientHandler.ServeLoop 3 (mkUser 4 "alice" true 1699999999000)
                  4 world_bye))
  !! 4
  = Some [NetworkLayer.frame
            (mkMessage (code PUBLIC_MESSAGE) 1700000000300 "" "" "late")].
Proof.
  assert (Hrecv : NetworkLayer.ReceiveMessage 4 world_bye
            = (Some (mkMessage (code COMMAND_RESPONSE) 1700000000200 "" "" "BYE"),
               set_inbound 4
                 [NetworkLayer.frame
                    (mkMessage (code PUBLIC_MESSAGE) 1700000000300 "" "" "late")]
                 world_bye)).
  { unfold NetworkLayer.ReceiveMessage.
    assert (Hs : NetworkLayer.ReceiveMessage_stream
                   (default [] (inbound world_bye !! 4))
                 = (Some (mkMessage (code COMMAND_RESPONSE) 1700000000200
                            "" "" "BYE"),
                    [NetworkLayer.frame
                       (mkMessage (code PUBLIC_MESSAGE) 1700000000300
                          "" "" "late")]))
      by (vm_compute; reflexivity).
    rewrite Hs. reflexivity. }
  pose proof (ServeLoop_bye_stops 2 (mkUser 4 "alice" true 1699999999000) 4
                world_bye _ _ eq_refl Hrecv eq_refl eq_refl) as H.
  cbv zeta in H. destruct H as (_ & H). rewrite H.
  cbn [inbound set_inbound]. apply lookup_insert_eq.
Defined.

(** ** Shutting down *)




(** ** The client: what is typed *)

Lemma find_first (c : ascii) (a b : string) :
  ~ In c (list_ascii_of_string a) ->
  ClientCLI.find c (a ++ String c b) = Some (String.length a).
Proof.
  induction a as [| c' a IH]; intros Hnot; simpl.
  - now rewrite Ascii.eqb_refl.
  - simpl in Hnot. destruct (Ascii.eqb_spec c' c) as [-> | Hne].
    + exfalso. apply Hnot. now left.
    + rewrite IH; [reflexivity |]. intros Hin. apply Hnot. now right.
Qed.

Lemma substring_whole (s : string) : substring 0 (String.length s) s = s.
Proof. induction s as [| c s IH]; simpl; [reflexivity | now rewrite IH]. Qed.

Lemma substring_prefix (a b : string) :
  substring 0 (String.length a) (a ++ b) = a.
Proof.
  induction a as [| c a IH]; simpl; [now destruct b | now rewrite IH].
Qed.

Lemma substring_skip (a b : string) (n m : nat) :
  substring (String.length a + n) m (a ++ b) = substring n m b.
Proof. induction a as [| c a IH]; simpl; [reflexivity | exact IH]. Qed.

(** X21: a line made of '@', a name without space, one space and a text is
    sent as one PRIVATE_MESSAGE whose target is the name and whose content
    is the text, spaces of the text included (both may be empty); the
    sender is left empty for the server to fill in. *)
Theorem InputLoop_private_line
    (name text : string) (lines : list string) (sock : Socket) (w : World) :
  ~ In " "%char (list_ascii_of_string name) ->
  ClientCLI.InputLoop_lines (("@" ++ name ++ " " ++ text)%string :: lines) sock w
  = ClientCLI.InputLoop_lines lines sock
      (add_sent sock
         (mkMessage (code PRIVATE_MESSAGE) (clock w (ticks w)) "" name text)
         (tick w)).
Proof.
  intros Hname.
  change ("@" ++ name ++ " " ++ text)%string
    with (String "@" (name ++ String " " text)).
  cbn [ClientCLI.InputLoop_lines].
  change (String.eqb (String "@" (name ++ String " " text)) "") with false.
  change (String.eqb (String "@" (name ++ String " " text)) "/bye") with false.
  change (String.eqb (String "@" (name ++ String " " text)) "/list") with false.
  cbv iota. unfold bind at 1. unfold NowEpochMs at 1.
  cbn [ClientCLI.starts_with_at]. rewrite Ascii.eqb_refl.
  cbn [ClientCLI.find]. change (Ascii.eqb "@" " ") with false. cbv iota.
  rewrite (find_first " " name text Hname).
  cbn [fmap option_fmap option_map].
  assert (Htarget : substring 1 (S (String.length name) - 1)
                      (String "@" (name ++ String " " text)) = name).
  { replace (S (String.length name) - 1)%nat with (String.length name) by lia.
    simpl. apply substring_prefix. }
  assert (Hcontent : ClientCLI.substr_from (S (String.length name) + 1)
                       (String "@" (name ++ String " " text)) = text).
  { unfold ClientCLI.substr_from. simpl String.length.
    rewrite length_string_app. simpl String.length.
    replace (S (String.length name + S (String.length text))
             - (S (String.length name) + 1))%nat
      with (String.length text) by lia.
    replace (S (String.length name) + 1)%nat
      with (S (String.length name + 1)) by lia.
    simpl. rewrite substring_skip. simpl. apply substring_whole. }
  rewrite Htarget, Hcontent. unfold bind at 1.
  unfold NetworkLayer.SendMessage at 1. reflexivity.
Qed.

Lemma InputLoop_private_line_witness :
  ClientCLI.InputLoop_lines ["@bob see you at 5"%string] 3 world0
  = ClientCLI.InputLoop_lines [] 3
      (add_sent 3
         (mkMessage (code PRIVATE_MESSAGE) (clock world0 (ticks world0))
                    "" "bob" "see you at 5")
         (tick world0)).
Proof.
  apply (InputLoop_private_line "bob" "see you at 5" [] 3 world0).
  cbn. intros H. repeat (destruct H as [H | H]; [discriminate |]). exact H.
Defined.

(** X22: "/bye" sends BYE, closes the socket and ends the input loop:
    whatever is typed after it is never read, and nothing of it is sent. *)
Theorem InputLoop_nothing_after_bye
    (before after : list string) (sock : Socket) (w : World) :
  ClientCLI.InputLoop_lines (before ++ "/bye"%string :: after) sock w
  = ClientCLI.InputLoop_lines (before ++ ["/bye"%string]) sock w
  /\ ClientCLI.InputLoop_lines ("/bye"%string :: after) sock w
     = NetworkLayer.Close sock
         (add_sent sock
            (mkMessage (code COMMAND_RESPONSE) (clock w (ticks w)) "" "" "BYE")
            (tick w)).
Proof.
  split; [| reflexivity].
  revert w. induction before as [| line before IH]; intros w; [reflexivity |].
  cbn [app ClientCLI.InputLoop_lines].
  destruct (String.eqb line ""); [apply IH |].
  unfold bind, NowEpochMs, NetworkLayer.SendMessage.
  destruct (String.eqb line "/bye"); [reflexivity |].
  destruct (String.eqb line "/list"); [apply IH |].
  destruct (ClientCLI.starts_with_at line); [| apply IH].
  destruct (ClientCLI.find " " line); apply IH.
Qed.

(** X23: the input loop sends at most one message for each line typed,
    every one of them to its own socket and with the sender left empty,
    and it takes back nothing of what was sent before. *)
Theorem InputLoop_one_message_per_line
    (lines : list string) (sock : Socket) (w : World) :
  exists extra,
    sent (snd (ClientCLI.InputLoop_lines lines sock w)) = sent w ++ extra
    /\ (length extra <= length lines)%nat
    /\ Forall (fun p => fst p = sock /\ sender_username (snd p) = ""%string)
              extra.
Proof.
  revert w. induction lines as [| line lines IH]; intros w.
  - exists []. cbn [ClientCLI.InputLoop_lines ret snd length].
    rewrite app_nil_r. split; [reflexivity |]. split; [lia | constructor].
  - assert (Hskip : forall w1, sent w1 = sent w ->
              exists extra,
                sent (snd (ClientCLI.InputLoop_lines lines sock w1))
                = sent w ++ extra
                /\ (length extra <= length (line :: lines))%nat
                /\ Forall (fun p => fst p = sock
                                    /\ sender_username (snd p) = ""%string)
                          extra).
    { intros w1 Hw1. destruct (IH w1) as (extra & Hs & Hl & Hf).
      exists extra. rewrite Hs, Hw1. cbn [length]. repeat split; [lia | exact Hf]. }
    assert (Hsend : forall m, sender_username m = ""%string ->
              exists extra,
                sent (snd (ClientCLI.InputLoop_lines lines sock
                             (add_sent sock m (tick w))))
                = sent w ++ extra
                /\ (length extra <= length (line :: lines))%nat
                /\ Forall (fun p => fst p = sock
                                    /\ sender_username (snd p) = ""%string)
                          extra).
    { intros m Hm. destruct (IH (add_sent sock m (tick w)))
        as (extra & Hs & Hl & Hf).
      exists ((sock, m) :: extra). rewrite Hs. cbn [sent add_sent tick length].
      rewrite <- app_assoc. repeat split; [lia |].
      constructor; [split; [reflexivity | exact Hm] | exact Hf]. }
    cbn [ClientCLI.InputLoop_lines].
    destruct (String.eqb line ""); [now apply Hskip |].
    unfold bind, NowEpochMs, NetworkLayer.SendMessage.
    destruct (String.eqb line "/bye").
    { eexists [_]. unfold NetworkLayer.Close.
      destruct (0 <=? sock); cbn [snd sent add_sent add_closed tick length];
        (repeat split; [lia |]); repeat constructor. }
    destruct (String.eqb line "/list"); [now apply Hsend |].
    destruct (ClientCLI.starts_with_at line); [| now apply Hsend].
    destruct (ClientCLI.find " " line); [now apply Hsend | now apply Hskip].
Qed.

(** ** The client: what is received *)

(** One turn of [ReceiveLoop]. *)
Lemma ReceiveLoop_turn (fuel : nat) (sock : Socket) (w : World) :
  ClientCLI.ReceiveLoop_turns (S fuel) sock w
  = match NetworkLayer.ReceiveMessage sock w with
    | (None, w1) => (tt, add_console_out "Disconnected from server." w1)
    | (Some msg, w1) =>
        if (type msg =? code COMMAND_RESPONSE)
           && String.eqb (content msg) "GOODBYE"
        then (tt, w1)
        else
          let w2 :=
            if String.prefix "USER_NOT_FOUND:" (content msg)
            then add_console_out
                   ("User not found" ++ ClientCLI.substr_from 14 (content msg)) w1
            else w1 in
          ClientCLI.ReceiveLoop_turns fuel sock (snd (ClientCLI.display msg w2))
    end.
Proof.
  cbn [ClientCLI.ReceiveLoop_turns]. unfold bind at 1.
  destruct (NetworkLayer.ReceiveMessage sock w) as [[msg |] w1];
    [| reflexivity].
  destruct (_ && _); [reflexivity |].
  unfold bind at 1. cbv zeta.
  destruct (String.prefix "USER_NOT_FOUND:" (content msg)).
  - unfold Console.Print at 1. unfold bind at 1.
    now destruct (ClientCLI.display msg _) as [[] w3].
  - unfold ret at 1. unfold bind at 1.
    now destruct (ClientCLI.display msg _) as [[] w3].
Qed.

Lemma display_prints (msg : Message) (w : World) :
  inbound (snd (ClientCLI.display msg w)) = inbound w
  /\ sent (snd (ClientCLI.display msg w)) = sent w
  /\ exists lines, console_out (snd (ClientCLI.display msg w))
                   = console_out w ++ lines
                   /\ (length lines <= 1)%nat.
Proof.
  unfold ClientCLI.display.
  destruct (of_code (type msg)) as [[] |];
    cbn [snd inbound sent console_out Console.Print ret add_console_out];
    (split; [reflexivity |]); (split; [reflexivity |]);
    first [ eexists [_]; split; [reflexivity | cbn; lia]
          | exists []; split; [now rewrite app_nil_r | cbn; lia] ].
Qed.

(** Every turn that goes on has taken a frame out of the stream: more fuel
    than there are bytes to come changes nothing. *)
Lemma ReceiveLoop_fuel_enough (fuel fuel' : nat) (sock : Socket) (w : World) :
  (ClientHandler.pending sock w < fuel)%nat ->
  (ClientHandler.pending sock w < fuel')%nat ->
  ClientCLI.ReceiveLoop_turns fuel sock w
  = ClientCLI.ReceiveLoop_turns fuel' sock w.
Proof.
  revert fuel' w. induction fuel as [| fuel IH]; intros fuel' w Hf Hf'; [lia |].
  destruct fuel' as [| fuel']; [lia |].
  rewrite !ReceiveLoop_turn. unfold NetworkLayer.ReceiveMessage.
  destruct (NetworkLayer.ReceiveMessage_stream (default [] (inbound w !! sock)))
    as [[msg |] rest] eqn:Hrecv; [| reflexivity].
  apply ReceiveMessage_stream_consumes in Hrecv.
  destruct (_ && _); [reflexivity |]. cbv zeta.
  match goal with |- context [ClientCLI.display msg ?w2] =>
    destruct (display_prints msg w2) as (Hin & _);
    assert (Hw2 : inbound w2 = <[sock := rest]> (inbound w))
      by (destruct (String.prefix _ _); reflexivity);
    set (w3 := snd (ClientCLI.display msg w2)) in * end.
  assert (Hpend : ClientHandler.pending sock w3 = length (concat rest)).
  { unfold ClientHandler.pending. rewrite Hin, Hw2.
    now rewrite lookup_insert_eq. }
  unfold ClientHandler.pending in Hf, Hf'.
  apply IH; rewrite Hpend; lia.
Qed.

(** X24: a message whose content is USER_NOT_FOUND: followed by a name (the
    notice [SendPrivate] sends back for a target that is not registered)
    makes the client print "User not found:" followed by that name, then
    what it prints for the type of the message: nothing more for a
    COMMAND_RESPONSE, but the chat line as well for a PUBLIC_MESSAGE that
    another user has typed with such a text. *)
Theorem ReceiveLoop_user_not_found
    (fuel : nat) (sock : Socket) (w w1 : World) (msg : Message)
    (name : string) :
  NetworkLayer.ReceiveMessage sock w = (Some msg, w1) ->
  content msg = ("USER_NOT_FOUND:" ++ name)%string ->
  let notice := ("User not found:" ++ name)%string in
  ClientCLI.ReceiveLoop_turns (S fuel) sock w
  = ClientCLI.ReceiveLoop_turns fuel sock
      (snd (ClientCLI.display msg (add_console_out notice w1)))
  /\ (type msg = code COMMAND_RESPONSE ->
      ClientCLI.ReceiveLoop_turns (S fuel) sock w
      = ClientCLI.ReceiveLoop_turns fuel sock (add_console_out notice w1))
  /\ (type msg = code PUBLIC_MESSAGE ->
      ClientCLI.ReceiveLoop_turns (S fuel) sock w
      = ClientCLI.ReceiveLoop_turns fuel sock
          (add_console_out (sender_username msg ++ ": " ++ content msg)
             (add_console_out notice w1))).
Proof.
  intros Hrecv Hcontent. cbv zeta.
  assert (Heq : ClientCLI.ReceiveLoop_turns (S fuel) sock w
    = ClientCLI.ReceiveLoop_turns fuel sock
        (snd (ClientCLI.display msg
                (add_console_out ("User not found:" ++ name) w1)))).
  { rewrite ReceiveLoop_turn, Hrecv, Hcontent.
    change (String.eqb ("USER_NOT_FOUND:" ++ name) "GOODBYE") with false.
    rewrite andb_false_r. cbv zeta.
    change (String.prefix "USER_NOT_FOUND:" ("USER_NOT_FOUND:" ++ name))
      with (String.prefix "" name).
    replace (String.prefix "" name) with true by (now destruct name).
    assert (Hsub : ClientCLI.substr_from 14 ("USER_NOT_FOUND:" ++ name)
                   = (":" ++ name)%string).
    { unfold ClientCLI.substr_from.
      change (String.length ("USER_NOT_FOUND:" ++ name))
        with (15 + String.length name)%nat.
      replace (15 + String.length name - 14)%nat
        with (S (String.length name)) by lia.
      change (substring 14 (S (String.length name)) ("USER_NOT_FOUND:" ++ name))
        with (String ":" (substring 0 (String.length name) name)).
      now rewrite substring_whole. }
    rewrite Hsub. reflexivity. }
  split; [exact Heq |]. split.
  - intros Hty. rewrite Heq. unfold ClientCLI.display. rewrite Hty. reflexivity.
  - intros Hty. rewrite Heq. unfold ClientCLI.display. rewrite Hty. reflexivity.
Qed.

Lemma ReceiveLoop_user_not_found_witness :
  ClientCLI.ReceiveLoop_turns 3 3 world_client
  = ClientCLI.ReceiveLoop_turns 2 3
      (add_console_out "User not found:carol"
         (set_inbound 3
            [NetworkLayer.frame (server_command "GOODBYE" 1700000000500);
             NetworkLayer.frame
               (mkMessage (code PUBLIC_MESSAGE) 1700000000600 "bob" "" "too late")]
            world_client)).
Proof.
  assert (Hrecv : NetworkLayer.ReceiveMessage 3 world_client
    = (Some (mkMessage (code COMMAND_RESPONSE) 1700000000400 "Server" ""
                       "USER_NOT_FOUND:carol"),
       set_inbound 3
         [NetworkLayer.frame (server_command "GOODBYE" 1700000000500);
          NetworkLayer.frame
            (mkMessage (code PUBLIC_MESSAGE) 1700000000600 "bob" "" "too late")]
         world_client)).
  { unfold NetworkLayer.ReceiveMessage.
    assert (Hs : NetworkLayer.ReceiveMessage_stream
                   (default [] (inbound world_client !! 3))
      = (Some (mkMessage (code COMMAND_RESPONSE) 1700000000400 "Server" ""
                         "USER_NOT_FOUND:carol"),
         [NetworkLayer.frame (server_command "GOODBYE" 1700000000500);
          NetworkLayer.frame
            (mkMessage (code PUBLIC_MESSAGE) 1700000000600 "bob" "" "too late")]))
      by (vm_compute; reflexivity).
    rewrite Hs. reflexivity. }
  pose proof (ReceiveLoop_user_not_found 2 3 world_client _ _ "carol"
                Hrecv eq_refl) as H.
  cbv zeta in H. destruct H as (_ & H & _). apply H. reflexivity.
Defined.

(** X25: the receive loop ends in two ways.  When the connection gives no
    more message it prints "Disconnected from server." and returns; when a
    COMMAND_RESPONSE with content GOODBYE arrives (the answer of [Process]
    to BYE) it returns without printing anything, and frames that follow
    on the socket are left unread. *)
Theorem ReceiveLoop_ends (fuel : nat) (sock : Socket) (w w1 : World) :
  (NetworkLayer.ReceiveMessage sock w = (None, w1) ->
   ClientCLI.ReceiveLoop_turns (S fuel) sock w
   = (tt, add_console_out "Disconnected from server." w1))
  /\ (forall msg,
        NetworkLayer.ReceiveMessage sock w = (Some msg, w1) ->
        type msg = code COMMAND_RESPONSE ->
        content msg = "GOODBYE"%string ->
        ClientCLI.ReceiveLoop_turns (S fuel) sock w = (tt, w1)
        /\ console_out w1 = console_out w).
Proof.
  split.
  - intros Hrecv. now rewrite ReceiveLoop_turn, Hrecv.
  - intros msg Hrecv Hty Hbye. split.
    + rewrite ReceiveLoop_turn, Hrecv, Hty, Hbye. reflexivity.
    + unfold NetworkLayer.ReceiveMessage in Hrecv.
      destruct (NetworkLayer.ReceiveMessage_stream _) as [r rest].
      injection Hrecv as _ <-. reflexivity.
Qed.

Lemma ReceiveLoop_ends_witness :
  ClientCLI.ReceiveLoop_turns 1 3 world0
  = (tt, add_console_out "Disconnected from server." (set_inbound 3 [] world0)).
Proof.
  apply (proj1 (ReceiveLoop_ends 0 3 world0 (set_inbound 3 [] world0))).
  reflexivity.
Defined.

(** X26: the receive loop only reads and prints: it sends nothing, closes
    nothing, and prints at most two lines for each turn it makes, after
    the lines already on the terminal. *)
Theorem ReceiveLoop_only_prints (fuel : nat) (sock : Socket) (w : World) :
  let w' := snd (ClientCLI.ReceiveLoop_turns fuel sock w) in
  sent w' = sent w
  /\ closed w' = closed w
  /\ exists lines,
       console_out w' = console_out w ++ lines
       /\ (length lines <= 2 * fuel)%nat.
Proof.
  cbv zeta. revert w. induction fuel as [| fuel IH]; intros w.
  - cbn. repeat split. exists []. now rewrite app_nil_r.
  - rewrite ReceiveLoop_turn. unfold NetworkLayer.ReceiveMessage.
    destruct (NetworkLayer.ReceiveMessage_stream _) as [[msg |] rest].
    + destruct (_ && _).
      * cbn [snd sent closed console_out set_inbound]. repeat split.
        exists []. rewrite app_nil_r. split; [reflexivity | cbn; lia].
      * cbv zeta.
        match goal with |- context [ClientCLI.display msg ?w2] =>
          assert (Hw2 : sent w2 = sent w /\ closed w2 = closed w
                        /\ exists l2, console_out w2 = console_out w ++ l2
                                      /\ (length l2 <= 1)%nat)
            by (destruct (String.prefix _ _);
                cbn [sent closed console_out add_console_out set_inbound];
                repeat split;
                [eexists [_]; split; [reflexivity | cbn; lia]
                | exists []; split; [now rewrite app_nil_r | cbn; lia]]);
          set (w2' := w2) in * end.
        destruct Hw2 as (Hs2 & Hc2 & l2 & Ho2 & Hl2).
        assert (Hd : sent (snd (ClientCLI.display msg w2')) = sent w2'
                     /\ closed (snd (ClientCLI.display msg w2')) = closed w2').
        { unfold ClientCLI.display.
          destruct (of_code (type msg)) as [[] |]; split; reflexivity. }
        destruct (display_prints msg w2') as (_ & _ & l3 & Ho3 & Hl3).
        destruct Hd as (Hs3 & Hc3).
        destruct (IH (snd (ClientCLI.display msg w2')))
          as (Hs & Hc & lines & Ho & Hl).
        split; [congruence |]. split; [congruence |].
        exists (l2 ++ l3 ++ lines).
        rewrite Ho, Ho3, Ho2, <- !app_assoc. split; [reflexivity |].
        rewrite !length_app. lia.
    + cbn [snd sent closed console_out add_console_out set_inbound].
      repeat split. eexists [_]. split; [reflexivity | cbn; lia].
Qed.

(** ** Reading raw bytes *)

(** X27: when [recv_all] succeeds it returns exactly the number of bytes
    asked for, and these followed by what stays on the stream are the bytes
    of the stream in their order: none is lost, repeated or moved. *)
Theorem recv_all_conserves_bytes
    (stream rest : list (list ascii)) (len : nat) (bs : list ascii) :
  NetworkLayer.recv_all stream len = (Some bs, rest) ->
  length bs = len /\ concat stream = bs ++ concat rest.
Proof.
  revert len bs rest. induction stream as [| chunk stream IH];
    intros len bs rest Hrecv.
  - destruct len; cbn in Hrecv; [| discriminate].
    injection Hrecv as <- <-. split; reflexivity.
  - destruct len as [| len'].
    { cbn in Hrecv. injection Hrecv as <- <-. split; reflexivity. }
    cbn [NetworkLayer.recv_all] in Hrecv.
    destruct (Nat.eqb_spec (length chunk) 0); [discriminate |].
    destruct (Nat.leb_spec (length chunk) (S len')) as [Hle | Hgt].
    + destruct (NetworkLayer.recv_all stream (S len' - length chunk))
        as [[bs' |] rest'] eqn:Hrec; [| discriminate].
      injection Hrecv as <- <-. destruct (IH _ _ _ Hrec) as [Hl Hc].
      split; [rewrite length_app; lia |].
      cbn [concat]. now rewrite Hc, app_assoc.
    + injection Hrecv as <- <-. split; [rewrite length_take; lia |].
      cbn [concat]. now rewrite app_assoc, take_drop.
Qed.

Lemma recv_all_conserves_bytes_witness :
  length (take 4 (reply_frame "bob")) = 4%nat
  /\ concat [take 3 (reply_frame "bob"); drop 3 (reply_frame "bob")]
     = take 4 (reply_frame "bob")
       ++ concat [drop 1 (drop 3 (reply_frame "bob"))].
Proof.
  apply (recv_all_conserves_bytes
           [take 3 (reply_frame "bob"); drop 3 (reply_frame "bob")]
           [drop 1 (drop 3 (reply_frame "bob"))] 4).
  vm_compute. reflexivity.
Defined.
